(** * GDP dashboard: the data shaping of [streamlit_app.py]

    A shallow embedding of the script's data path: the wide table returned by
    [pd.read_csv], its [melt] into one row per (country, year), the boolean
    mask that selects the charted rows, and the loop that renders one metric
    card per selected country.

    A cell of a frame is a text or an IEEE 754 binary64 number (pandas'
    [float64]); numbers are Rocq's primitive floats, whose only NaN is [nan].
    Python's exceptions are the constructors of [exn]; a computation that may
    raise returns a [result]. *)

From Stdlib Require Import Floats ZArith List String Ascii Bool Lia Setoid.
From Stdlib Require Import Decimal DecimalString DecimalZ DecimalPos.
Import ListNotations.

Open Scope string_scope.
Open Scope Z_scope.
Open Scope list_scope.

(** ** Exceptions *)

Inductive exn : Type :=
| KeyError (labels : list string)   (* melt: labels absent from the frame *)
| ValueError (text : string)        (* melt: value_name already a column *)
| IndexError.                       (* .iat[0] on an empty Series *)

Inductive result (A : Type) : Type :=
| Ok (a : A)
| Raise (e : exn).

Arguments Ok {A} a.
Arguments Raise {A} e.

Definition bind {A B : Type} (r : result A) (k : A -> result B) : result B :=
  match r with
  | Ok a => k a
  | Raise e => Raise e
  end.

Notation "x <- r ;; k" := (bind r (fun x => k))
  (at level 61, r at next level, right associativity).

Fixpoint mapM {A B : Type} (f : A -> result B) (l : list A) : result (list B) :=
  match l with
  | [] => Ok []
  | a :: l' => b <- f a ;; bs <- mapM f l' ;; Ok (b :: bs)
  end.

(** ** Frames *)

(** A cell of a frame: a text, or a number.  A missing value is the number
    NaN, in a column of texts as in a column of numbers. *)
Inductive cell : Type :=
| Str (s : string)
| Num (x : float).

(** A column of the CSV file, as [pd.read_csv] types it: a column it keeps as
    text (dtype object), given by the text of its fields, or a column of
    numbers (dtype float64), given by the number in each field, [None] for an
    empty field. *)
Inductive fields : Type :=
| TextFields (texts : list string)
| NumberFields (numbers : list (option float)).

(** The file: its columns in order, each under its header. *)
Definition CsvFile : Type := list (string * fields).

(** The texts [pd.read_csv] reads as a missing value (its default
    [na_values], pandas 2). *)
Definition na_values : list string :=
  [EmptyString; "#N/A"; "#N/A N/A"; "#NA"; "-1.#IND"; "-1.#QNAN"; "-NaN"; "-nan";
   "1.#IND"; "1.#QNAN"; "<NA>"; "N/A"; "NA"; "NULL"; "NaN"; "None"; "n/a"; "nan";
   "null"].

Definition text_cell (field : string) : cell :=
  if existsb (String.eqb field) na_values then Num nan else Str field.

(** [read_csv] turns an empty numeric field into NaN. *)
Definition na_value (field : option float) : float :=
  match field with
  | Some v => v
  | None => nan
  end.

Definition read_fields (f : fields) : list cell :=
  match f with
  | TextFields texts => map text_cell texts
  | NumberFields numbers => map (fun field => Num (na_value field)) numbers
  end.

(** [raw_gdp_df]: the frame [pd.read_csv] builds, column by column. *)
Definition RawFrame : Type := list (string * list cell).

Definition read_csv (file : CsvFile) : RawFrame :=
  map (fun c => (fst c, read_fields (snd c))) file.

(** Column access by label: the first column carrying it. *)
Fixpoint column {A : Type} (label : string) (cols : list (string * A)) : option A :=
  match cols with
  | [] => None
  | (l, data) :: rest => if String.eqb l label then Some data else column label rest
  end.

Definition has_column {A : Type} (label : string) (cols : list (string * A)) : bool :=
  match column label cols with
  | Some _ => true
  | None => false
  end.

(** A row of the melted frame, before and after ['Year'] is made numeric. *)
Record MeltedRow : Type := mkMelted {
  melted_code : cell;
  melted_variable : string;
  melted_value : cell
}.

Record Row : Type := mkRow {
  row_code : cell;
  row_year : Z;
  row_gdp : cell
}.

(** A row whose country code is a text and whose GDP is a number: the rows
    the selection and the metric cards are modelled on. *)
Record Observation : Type := mkObs {
  Country_Code : string;
  Year : Z;
  GDP : float
}.

(** ** load_gdp_data *)

Definition MIN_YEAR : Z := 1960.
Definition MAX_YEAR : Z := 2022.

(** Python's [range(lo, hi)] and [str] on integers. *)
Definition range (lo hi : Z) : list Z :=
  map (fun i => lo + Z.of_nat i) (seq 0 (Z.to_nat (hi - lo))).

Definition str (n : Z) : string := NilZero.string_of_int (Z.to_int n).

(** [raw.melt([id_var], value_vars, 'Year', value_name)] (pandas 2.2).  It first
    refuses a frame that already has a column named [value_name], with
    [ValueError]; it then checks that every requested label is a column,
    whatever the column holds, and raises [KeyError] with the absent ones; the
    result stacks the value columns one after the other, the identifier
    column repeated beside each. *)
Definition melt (raw : RawFrame) (id_var : string) (value_vars : list string)
  (value_name : string) : result (list MeltedRow) :=
  if has_column value_name raw then Raise (ValueError value_name)
  else
    let missing := filter (fun l => negb (has_column l raw)) (id_var :: value_vars) in
    match missing with
    | _ :: _ => Raise (KeyError missing)
    | [] =>
        let ids := match column id_var raw with
                   | Some c => c
                   | None => []
                   end in
        Ok (flat_map
              (fun v =>
                 match column v raw with
                 | Some values =>
                     map (fun cv => mkMelted (fst cv) v (snd cv)) (combine ids values)
                 | None => []
                 end)
              value_vars)
    end.

(** [gdp_df['Year'] = pd.to_numeric(gdp_df['Year'])], row by row.
    [pd.to_numeric] is a parameter of the model, [to_numeric] on one label:
    the script applies it to the labels [str(year)] of the years 1960..2022
    and to nothing else, and what it answers on them is the hypothesis
    [reads_years] of the statements about the load. *)
Definition numeric_year (to_numeric : string -> result Z) (r : MeltedRow)
  : result Row :=
  y <- to_numeric (melted_variable r) ;;
  Ok (mkRow (melted_code r) y (melted_value r)).

Definition load_gdp_data (to_numeric : string -> result Z) (file : CsvFile)
  : result (list Row) :=
  let raw_gdp_df := read_csv file in
  gdp_df <- melt raw_gdp_df "Country Code"
                 (map str (range MIN_YEAR (MAX_YEAR + 1))) "GDP" ;;
  mapM (numeric_year to_numeric) gdp_df.

(** ** Tables of observations *)

(** The rest of the script compares country codes as texts and computes with
    GDP cells as float64 numbers.  It is modelled on the tables that are so
    typed: [observations] reads a loaded table as one, when every country
    code is a text and every GDP cell a number. *)
Definition observation (r : Row) : option Observation :=
  match row_code r, row_gdp r with
  | Str code, Num gdp => Some (mkObs code (row_year r) gdp)
  | _, _ => None
  end.

Fixpoint observations (gdp_df : list Row) : option (list Observation) :=
  match gdp_df with
  | [] => Some []
  | r :: rest =>
      match observation r, observations rest with
      | Some o, Some os => Some (o :: os)
      | _, _ => None
      end
  end.

(** ** Boolean masks and selection *)

(** [series.isin(values)], [series == v], [series >= v], [series <= v] and
    [a & b] are computed element by element; [df[mask]] keeps the rows whose
    mask entry is [True], in the frame's order. *)
Definition isin (codes : list string) (values : list string) : list bool :=
  map (fun c => existsb (String.eqb c) values) codes.

Definition mask_and (a b : list bool) : list bool :=
  map (fun p => andb (fst p) (snd p)) (combine a b).

Definition select {A : Type} (df : list A) (mask : list bool) : list A :=
  map fst (filter snd (combine df mask)).

Definition filtered_gdp_df (gdp_df : list Observation)
  (selected_countries : list string) (from_year to_year : Z) : list Observation :=
  select gdp_df
    (mask_and
       (mask_and (isin (map Country_Code gdp_df) selected_countries)
                 (map (fun y => from_year <=? y) (map Year gdp_df)))
       (map (fun y => y <=? to_year) (map Year gdp_df))).

(** ** Formatting floats: Python's [format(x, '.<p>f')] and [',.<p>f'] *)

(** The decimal expansion is that of the exact binary value, rounded to [p]
    fractional digits with ties to even. *)
Definition round_half_even (num den : Z) : Z :=
  let q := num / den in
  let r := num mod den in
  if 2 * r <? den then q
  else if den <? 2 * r then q + 1
  else if Z.even q then q else q + 1.

(** [m * 2^e * 10^p], rounded to an integer. *)
Definition scaled (p : nat) (m : positive) (e : Z) : Z :=
  if 0 <=? e then Z.pos m * 2 ^ e * 10 ^ Z.of_nat p
  else round_half_even (Z.pos m * 10 ^ Z.of_nat p) (2 ^ (- e)).

Definition digits (n : Z) : string := NilZero.string_of_uint (N.to_uint (Z.to_N n)).

Fixpoint zeros (k : nat) : string :=
  match k with
  | O => EmptyString
  | S k' => String "0" (zeros k')
  end.

(** Thousands separators, inserted from the right. *)
Fixpoint group_rev (l : list ascii) (k : nat) : list ascii :=
  match l with
  | [] => []
  | c :: rest =>
      match k, rest with
      | O, _ :: _ => c :: ","%char :: group_rev rest 2
      | O, [] => [c]
      | S k', _ => c :: group_rev rest k'
      end
  end.

Definition group_thousands (s : string) : string :=
  string_of_list_ascii (List.rev (group_rev (List.rev (list_ascii_of_string s)) 2)).

Definition fixed (grouping : bool) (p : nat) (n : Z) : string :=
  let whole := digits (n / 10 ^ Z.of_nat p) in
  let frac := digits (n mod 10 ^ Z.of_nat p) in
  ((if grouping then group_thousands whole else whole) ++
   match p with
   | O => ""
   | S _ => "." ++ zeros (p - String.length frac) ++ frac
   end)%string.

Definition sign (s : bool) : string := if s then "-" else "".

Definition format_f (grouping : bool) (p : nat) (x : float) : string :=
  match Prim2SF x with
  | S754_nan => "nan"
  | S754_infinity s => (sign s ++ "inf")%string
  | S754_zero s => (sign s ++ fixed grouping p 0)%string
  | S754_finite s m e => (sign s ++ fixed grouping p (scaled p m e))%string
  end.

(** ** The metric cards *)

Record Metric : Type := mkMetric {
  label : string;
  value : string;
  delta : string;
  delta_color : string
}.

(** [series.iat[0]]. *)
Definition iat0 {A : Type} (series : list A) : result A :=
  match series with
  | v :: _ => Ok v
  | [] => Raise IndexError
  end.

(** The GDP of [country] in a one-year slice of the table, in billions. *)
Definition gdp_in_billions (year_data : list Observation) (country : string)
  : result float :=
  v <- iat0 (map GDP
               (select year_data
                  (map (fun c => String.eqb c country) (map Country_Code year_data)))) ;;
  Ok (v / 1e9)%float.

(** The body of the loop for one country.  The cells are numpy [float64]
    values, whose division follows IEEE 754: a zero divisor gives an infinity
    or NaN and raises nothing. *)
Definition metric_card (first_year_data last_year_data : list Observation)
  (country : string) : result Metric :=
  first_gdp <- gdp_in_billions first_year_data country ;;
  last_gdp <- gdp_in_billions last_year_data country ;;
  let '(growth, color) :=
    if is_nan first_gdp then ("N/A", "off")
    else ((format_f false 2 (last_gdp / first_gdp)%float ++ "x")%string, "normal") in
  Ok (mkMetric (country ++ " GDP")%string
               (format_f true 0 last_gdp ++ "B USD")%string
               growth color).

(** The loop over [enumerate(selected_countries)].  Each card goes to column
    [i % 4]; the state is the list of cards drawn so far, and an exception
    leaves the loop with the cards already drawn. *)
Fixpoint draw_metrics (first_year_data last_year_data : list Observation)
  (i : nat) (countries : list string) (drawn : list (nat * Metric))
  : list (nat * Metric) * option exn :=
  match countries with
  | [] => (drawn, None)
  | country :: rest =>
      match metric_card first_year_data last_year_data country with
      | Ok m =>
          draw_metrics first_year_data last_year_data (S i) rest
                       (drawn ++ [(Nat.modulo i 4, m)])
      | Raise e => (drawn, Some e)
      end
  end.

Definition year_slice (gdp_df : list Observation) (year : Z) : list Observation :=
  select gdp_df (map (fun y => y =? year) (map Year gdp_df)).

Definition render_metrics (gdp_df : list Observation)
  (selected_countries : list string) (from_year to_year : Z)
  : list (nat * Metric) * option exn :=
  let first_year_data := year_slice gdp_df from_year in
  let last_year_data := year_slice gdp_df to_year in
  draw_metrics first_year_data last_year_data 0 selected_countries [].

(** The metric of one country, from the full observation table. *)
Definition compute_growth (gdp_df : list Observation) (country : string)
  (from_year to_year : Z) : result Metric :=
  metric_card (year_slice gdp_df from_year) (year_slice gdp_df to_year) country.

(** ** The widgets' inputs *)

(** [series.min()] and [series.max()]; on an empty Series pandas answers NaN,
    here [None]. *)
Definition series_min (series : list Z) : option Z :=
  match series with
  | [] => None
  | y :: rest => Some (fold_left Z.min rest y)
  end.

Definition series_max (series : list Z) : option Z :=
  match series with
  | [] => None
  | y :: rest => Some (fold_left Z.max rest y)
  end.

Definition min_year (gdp_df : list Row) : option Z :=
  series_min (map row_year gdp_df).

Definition max_year (gdp_df : list Row) : option Z :=
  series_max (map row_year gdp_df).

(** [series.unique()]: the values in the order of their first appearance,
    [seen] being the table of those met so far. *)
Fixpoint unique_from (seen : list string) (series : list string) : list string :=
  match series with
  | [] => []
  | c :: rest =>
      if existsb (String.eqb c) seen then unique_from seen rest
      else c :: unique_from (c :: seen) rest
  end.

Definition unique (series : list string) : list string := unique_from [] series.

Definition countries (gdp_df : list Observation) : list string :=
  unique (map Country_Code gdp_df).

(** [if not selected_countries: st.warning(...)]. *)
Definition selection_warning (selected_countries : list string) : option string :=
  match selected_countries with
  | [] => Some "Please select at least one country."
  | _ :: _ => None
  end.

(** ** Specification-side vocabulary *)

(** [gdp(country, year)]: the GDP cell of the first row of the table for that
    country and year, if there is one. *)
Definition gdp_at (gdp_df : list Observation) (country : string) (year : Z)
  : option float :=
  option_map GDP
    (find (fun o => (Year o =? year) && String.eqb (Country_Code o) country) gdp_df).

(** What the script relies on from [pd.to_numeric]: the label of a year of
    1960..2022 is read as that year. *)
Definition reads_years (to_numeric : string -> result Z) : Prop :=
  forall y, MIN_YEAR <= y <= MAX_YEAR -> to_numeric (str y) = Ok y.

(** Every column of the file has [n] fields. *)
Definition csv_rows (file : CsvFile) (n : nat) : bool :=
  forallb (fun c => Nat.eqb (List.length (read_fields (snd c))) n) file.

(** The cells of the loaded country-code column, one per source row. *)
Definition code_cells (file : CsvFile) : list cell :=
  match column "Country Code" (read_csv file) with
  | Some cells => cells
  | None => []
  end.

(** The years whose columns are melted. *)
Definition years : list Z := range MIN_YEAR (MAX_YEAR + 1).

Arguments years : simpl never.

(** The file has the country-code column and every year column, and no
    column named GDP. *)
Definition has_schema (file : CsvFile) : bool :=
  negb (has_column "GDP" (read_csv file)) &&
  has_column "Country Code" (read_csv file) &&
  forallb (fun y => has_column (str y) (read_csv file)) years.

(** The row predicate of the chart's selection. *)
Definition selected (countries : list string) (from_year to_year : Z)
  (o : Observation) : bool :=
  existsb (String.eqb (Country_Code o)) countries
  && (from_year <=? Year o) && (Year o <=? to_year).

(** The texts of a column of texts, the numbers of a column of numbers. *)
Fixpoint texts (cells : list cell) : option (list string) :=
  match cells with
  | [] => Some []
  | Str s :: rest => option_map (cons s) (texts rest)
  | Num _ :: _ => None
  end.

Fixpoint numbers (cells : list cell) : option (list float) :=
  match cells with
  | [] => Some []
  | Num x :: rest => option_map (cons x) (numbers rest)
  | Str _ :: _ => None
  end.

(** The country codes of the file, when none is missing. *)
Definition code_column (file : CsvFile) : list string :=
  match texts (code_cells file) with
  | Some codes => codes
  | None => []
  end.

(** The numbers of a year's column, when it is a column of numbers. *)
Definition year_numbers (file : CsvFile) (y : Z) : option (list float) :=
  match column (str y) (read_csv file) with
  | Some cells => numbers cells
  | None => None
  end.

(** The block of rows one year column yields, and the table the load is
    proved to return: the blocks of the years 1960..2022 in order. *)
Definition row_block (codes values : list cell) (y : Z) : list Row :=
  map (fun cv => mkRow (fst cv) y (snd cv)) (combine codes values).

Definition tidy_rows (file : CsvFile) : list Row :=
  flat_map
    (fun y =>
       match column (str y) (read_csv file) with
       | Some values => row_block (code_cells file) values y
       | None => []
       end)
    years.

(** The same, as observations. *)
Definition year_block (codes : list string) (values : list float) (y : Z)
  : list Observation :=
  map (fun cv => mkObs (fst cv) y (snd cv)) (combine codes values).

Definition tidy (file : CsvFile) (codes : list string) : list Observation :=
  flat_map
    (fun y =>
       match year_numbers file y with
       | Some values => year_block codes values y
       | None => []
       end)
    years.

(** A file used to instantiate the statements below: two countries, every
    year column, France's cells empty. *)
Definition sample_file : CsvFile :=
  ("Country Name", TextFields ["Germany"; "France"]) ::
  ("Country Code", TextFields ["DEU"; "FRA"]) ::
  map (fun y => (str y, NumberFields [Some (if y =? 2022 then 450%float else 100%float); None]))
      years.

(** A reader of decimal digits, used for [to_numeric] in the examples. *)
Definition read_decimal (text : string) : result Z :=
  match NilZero.int_of_string text with
  | Some d => Ok (Z.of_int d)
  | None => Raise (ValueError text)
  end.

(** * Lemmas on masks and lists *)

Lemma select_map {A : Type} (p : A -> bool) (df : list A) :
  select df (map p df) = filter p df.
Proof.
  unfold select.
  induction df as [|a df IH]; simpl; [reflexivity|].
  destruct (p a); simpl; now rewrite IH.
Qed.

Lemma mask_and_map {A : Type} (p q : A -> bool) (l : list A) :
  mask_and (map p l) (map q l) = map (fun a => p a && q a) l.
Proof.
  unfold mask_and.
  induction l as [|a l IH]; simpl; [reflexivity|].
  now rewrite IH.
Qed.

Lemma filtered_gdp_df_filter gdp_df countries from_year to_year :
  filtered_gdp_df gdp_df countries from_year to_year
  = filter (selected countries from_year to_year) gdp_df.
Proof.
  unfold filtered_gdp_df, isin.
  rewrite !map_map, !mask_and_map.
  apply select_map.
Qed.

Lemma year_slice_filter gdp_df year :
  year_slice gdp_df year = filter (fun o => Year o =? year) gdp_df.
Proof.
  unfold year_slice. rewrite map_map. apply select_map.
Qed.

Lemma filter_filter {A : Type} (p q : A -> bool) (l : list A) :
  filter p (filter q l) = filter (fun a => q a && p a) l.
Proof.
  induction l as [|a l IH]; simpl; [reflexivity|].
  destruct (q a); simpl; [destruct (p a)|]; now rewrite IH.
Qed.

Lemma hd_filter_find {A : Type} (p : A -> bool) (l : list A) :
  find p l = match filter p l with a :: _ => Some a | [] => None end.
Proof.
  induction l as [|a l IH]; simpl; [reflexivity|].
  now destruct (p a).
Qed.

(** The lookup of the loop body is [gdp_at] on the full table. *)
Lemma gdp_in_billions_spec gdp_df country year :
  gdp_in_billions (year_slice gdp_df year) country =
  match gdp_at gdp_df country year with
  | Some v => Ok (v / 1e9)%float
  | None => Raise IndexError
  end.
Proof.
  unfold gdp_in_billions, gdp_at.
  rewrite map_map, select_map, year_slice_filter, filter_filter, hd_filter_find.
  destruct (filter _ gdp_df); reflexivity.
Qed.

(** * Floats: when a quotient is NaN *)

Section Rounding.
Variables prec emax : Z.

Lemma shr_1_nonneg mrs : 0 <= shr_m mrs -> 0 <= shr_m (shr_1 mrs).
Proof.
  destruct mrs as [m r s]; simpl.
  destruct m as [|p|p]; simpl; try lia; destruct p; simpl; lia.
Qed.

Lemma iter_pos_nonneg p : forall mrs,
  0 <= shr_m mrs -> 0 <= shr_m (SpecFloat.iter_pos shr_1 p mrs).
Proof.
  induction p as [p IH|p IH|]; intros mrs H; simpl.
  - apply IH, IH, shr_1_nonneg, H.
  - apply IH, IH, H.
  - apply shr_1_nonneg, H.
Qed.

Lemma shr_fexp_nonneg m e l :
  0 <= m -> 0 <= shr_m (fst (shr_fexp prec emax m e l)).
Proof.
  intros H. unfold shr_fexp, shr.
  assert (H0 : 0 <= shr_m (shr_record_of_loc m l))
    by (destruct l as [|[]]; exact H).
  destruct (fexp prec emax (Zdigits2 m + e) - e); simpl; auto.
  apply iter_pos_nonneg, H0.
Qed.

Lemma round_nearest_even_nonneg m l : 0 <= m -> 0 <= round_nearest_even m l.
Proof.
  intros H. destruct l as [|[]]; simpl; try lia.
  destruct (Z.even m); lia.
Qed.

Lemma binary_round_aux_not_nan s m e l :
  0 <= m -> binary_round_aux prec emax s m e l <> S754_nan.
Proof.
  intros H. unfold binary_round_aux.
  pose proof (shr_fexp_nonneg m e l H) as H1.
  destruct (shr_fexp prec emax m e l) as [mrs' e']; simpl in H1.
  pose proof (shr_fexp_nonneg _ e' loc_Exact
                (round_nearest_even_nonneg _ (loc_of_shr_record mrs') H1)) as H2.
  destruct (shr_fexp prec emax _ e' loc_Exact) as [mrs'' e'']; simpl in H2.
  destruct (shr_m mrs'') as [|p|p]; try discriminate.
  - destruct (e'' <=? emax - prec); discriminate.
  - lia.
Qed.

Lemma SFdiv_core_binary_nonneg m1 e1 m2 e2 :
  0 <= m1 -> 0 < m2 ->
  0 <= fst (fst (SFdiv_core_binary prec emax m1 e1 m2 e2)).
Proof.
  intros H1 H2. unfold SFdiv_core_binary.
  set (s := e1 - e2 - _).
  set (m' := match s with Z0 => m1 | Zpos _ => Z.shiftl m1 s | Zneg _ => 0 end).
  assert (Hm : 0 <= m').
  { subst m'. destruct s; try lia. now apply Z.shiftl_nonneg. }
  pose proof (Z.div_pos m' m2 Hm H2) as Hq.
  unfold Z.div in Hq.
  destruct (Z.div_eucl m' m2) as [q r]; simpl in *. exact Hq.
Qed.

Lemma SFdiv_finite_not_nan x sy my ey :
  x <> S754_nan -> SFdiv prec emax x (S754_finite sy my ey) <> S754_nan.
Proof.
  intros Hx. destruct x as [sx|sx| |sx mx ex]; simpl; try discriminate.
  - congruence.
  - pose proof (SFdiv_core_binary_nonneg (Z.pos mx) ex (Z.pos my) ey) as H.
    destruct (SFdiv_core_binary prec emax (Z.pos mx) ex (Z.pos my) ey) as [[mz ez] lz].
    apply binary_round_aux_not_nan. apply H; lia.
Qed.
End Rounding.

Lemma SFcompare_refl f : f <> S754_nan -> SFcompare f f = Some Eq.
Proof.
  intros H. destruct f as [s|s| |s m e]; simpl; try congruence.
  - now destruct s.
  - rewrite Z.compare_refl.
    change (Pos.compare_cont Eq m m) with (Pos.compare m m).
    rewrite Pos.compare_refl. now destruct s.
Qed.

Lemma is_nan_Prim2SF x : is_nan x = true <-> Prim2SF x = S754_nan.
Proof.
  unfold is_nan. rewrite FloatAxioms.eqb_spec. unfold SFeqb. split.
  - intros H. destruct (Prim2SF x) eqn:E; try reflexivity.
    all: rewrite SFcompare_refl in H by discriminate; discriminate.
  - intros ->. reflexivity.
Qed.

Lemma is_nan_billions x : is_nan (x / 1e9)%float = is_nan x.
Proof.
  apply eq_true_iff_eq. rewrite !is_nan_Prim2SF, FloatAxioms.div_spec.
  change (Prim2SF 1e9) with (S754_finite false 8388608000000000 (-23)).
  split.
  - intros H. destruct (Prim2SF x) eqn:E; try reflexivity; exfalso;
      revert H; apply SFdiv_finite_not_nan; discriminate.
  - intros ->. reflexivity.
Qed.

(** * Formatting, on values printed by Python *)

Example format_ties_to_even :
  format_f false 2 0.125 = "0.12" /\ format_f false 2 0.375 = "0.38" /\
  format_f true 0 2.5 = "2" /\ format_f true 0 999.5 = "1,000".
Proof. repeat split; reflexivity. Qed.

Example format_grouping :
  format_f true 0 1234567.5 = "1,234,568" /\
  format_f true 0 (-1234567.0625) = "-1,234,567" /\
  format_f true 0 1e15 = "1,000,000,000,000,000".
Proof. repeat split; reflexivity. Qed.

Example format_special :
  format_f false 2 infinity = "inf" /\ format_f true 0 neg_infinity = "-inf" /\
  format_f true 0 nan = "nan" /\ format_f false 2 (-0) = "-0.00".
Proof. repeat split; reflexivity. Qed.

(** * Lemmas on [load_gdp_data] *)

Lemma mapM_Ok {A B : Type} (f : A -> result B) (g : A -> B) (l : list A) :
  (forall a, In a l -> f a = Ok (g a)) -> mapM f l = Ok (map g l).
Proof.
  induction l as [|a l IH]; intros H; simpl; [reflexivity|].
  rewrite (H a (or_introl eq_refl)); simpl.
  rewrite IH by (intros b Hb; apply H; now right).
  reflexivity.
Qed.

Lemma read_decimal_str y : read_decimal (str y) = Ok y.
Proof.
  unfold read_decimal, str.
  rewrite NilZero.isi.
  - now rewrite DecimalZ.of_to.
  - destruct y; simpl; try discriminate.
    intros H; injection H; apply Unsigned.to_uint_nonnil.
  - destruct y; simpl; try discriminate.
    intros H; injection H; apply Unsigned.to_uint_nonnil.
Qed.

Lemma read_decimal_years : reads_years read_decimal.
Proof. intros y _. apply read_decimal_str. Qed.

Lemma str_inj y1 y2 : str y1 = str y2 -> y1 = y2.
Proof.
  intros H. pose proof (read_decimal_str y1) as H1.
  rewrite H, read_decimal_str in H1. congruence.
Qed.

Lemma column_map {A B : Type} (f : A -> B) label (cols : list (string * A)) :
  column label (map (fun c => (fst c, f (snd c))) cols)
  = option_map f (column label cols).
Proof.
  induction cols as [|[l data] cols IH]; simpl; [reflexivity|].
  now destruct (String.eqb l label).
Qed.

Lemma column_read_csv label file :
  column label (read_csv file) = option_map read_fields (column label file).
Proof. apply column_map. Qed.

Lemma filter_nil_iff {A : Type} (p : A -> bool) (l : list A) :
  filter p l = [] <-> forall a, In a l -> p a = false.
Proof.
  induction l as [|a l IH]; simpl.
  - split; [intros _ b []|reflexivity].
  - destruct (p a) eqn:E; split.
    + discriminate.
    + intros H. specialize (H a (or_introl eq_refl)). congruence.
    + intros H b [<-|Hb]; [exact E|now apply IH].
    + intros H. apply IH. intros b Hb. apply H. now right.
Qed.

(** What [melt] answers. *)
Lemma melt_ValueError raw id_var value_vars value_name :
  has_column value_name raw = true ->
  melt raw id_var value_vars value_name = Raise (ValueError value_name).
Proof. intros H. unfold melt. now rewrite H. Qed.

Lemma melt_Ok raw id_var value_vars value_name :
  has_column value_name raw = false ->
  has_column id_var raw = true ->
  (forall v, In v value_vars -> has_column v raw = true) ->
  melt raw id_var value_vars value_name =
  Ok (flat_map
        (fun v =>
           match column v raw with
           | Some values =>
               map (fun cv => mkMelted (fst cv) v (snd cv))
                   (combine match column id_var raw with
                            | Some c => c
                            | None => []
                            end values)
           | None => []
           end)
        value_vars).
Proof.
  intros Hname Hid Hall. unfold melt. rewrite Hname.
  replace (filter _ (id_var :: value_vars)) with (@nil string); [reflexivity|].
  symmetry. apply filter_nil_iff. intros l [<-|Hl].
  - now rewrite Hid.
  - now rewrite Hall.
Qed.

Lemma melt_KeyError raw id_var value_vars value_name :
  has_column value_name raw = false ->
  (exists l, In l (id_var :: value_vars) /\ has_column l raw = false) ->
  exists labels,
    melt raw id_var value_vars value_name = Raise (KeyError labels) /\
    (forall l, In l labels <->
               In l (id_var :: value_vars) /\ has_column l raw = false).
Proof.
  intros Hname [l0 [Hl0 Hc0]]. unfold melt. rewrite Hname.
  set (missing := filter _ (id_var :: value_vars)).
  assert (Hin : forall l, In l missing <->
                          In l (id_var :: value_vars) /\ has_column l raw = false).
  { intros l. subst missing. now rewrite filter_In, negb_true_iff. }
  exists missing. split; [|exact Hin].
  destruct missing as [|l ls]; [|reflexivity].
  exfalso. apply (Hin l0). now split.
Qed.

Lemma numeric_years_blocks to_numeric raw ids (ys : list Z) :
  (forall y, In y ys -> to_numeric (str y) = Ok y) ->
  mapM (numeric_year to_numeric)
    (flat_map
       (fun v =>
          match column v raw with
          | Some values =>
              map (fun cv => mkMelted (fst cv) v (snd cv)) (combine ids values)
          | None => []
          end)
       (map str ys))
  = Ok (flat_map
          (fun y =>
             match column (str y) raw with
             | Some values => row_block ids values y
             | None => []
             end)
          ys).
Proof.
  intros Hys.
  set (g := fun r =>
              mkRow (melted_code r)
                    (match to_numeric (melted_variable r) with
                     | Ok y => y
                     | Raise _ => 0
                     end)
                    (melted_value r)).
  rewrite (mapM_Ok _ g).
  - f_equal. induction ys as [|y ys IH]; simpl; [reflexivity|].
    rewrite map_app, IH by (intros z Hz; apply Hys; now right). f_equal.
    destruct (column (str y) raw) as [values|]; simpl; [|reflexivity].
    unfold row_block. rewrite map_map.
    apply map_ext. intros [c v]. unfold g. simpl.
    now rewrite (Hys y (or_introl eq_refl)).
  - intros r Hr. apply in_flat_map in Hr. destruct Hr as [v [Hv Hr]].
    apply in_map_iff in Hv. destruct Hv as [y [<- Hy]].
    destruct (column (str y) raw); [|destruct Hr].
    apply in_map_iff in Hr. destruct Hr as [cv [<- _]].
    unfold numeric_year, g. simpl. now rewrite (Hys y Hy).
Qed.

Lemma in_years y : In y years <-> MIN_YEAR <= y <= MAX_YEAR.
Proof.
  unfold years, range. rewrite in_map_iff. split.
  - intros [i [<- Hi]]. apply in_seq in Hi. unfold MIN_YEAR, MAX_YEAR in *. lia.
  - intros H. exists (Z.to_nat (y - MIN_YEAR)). split.
    + unfold MIN_YEAR in *. lia.
    + apply in_seq. unfold MIN_YEAR, MAX_YEAR in *. lia.
Qed.

Lemma nth_error_years y :
  MIN_YEAR <= y <= MAX_YEAR ->
  nth_error years (Z.to_nat (y - MIN_YEAR)) = Some y.
Proof.
  intros H. unfold years, range.
  rewrite nth_error_map, nth_error_seq.
  replace (Z.to_nat (y - MIN_YEAR) <? Z.to_nat (MAX_YEAR + 1 - MIN_YEAR))%nat with true.
  - cbn [option_map]. f_equal. unfold MIN_YEAR in *. lia.
  - symmetry. apply Nat.ltb_lt. unfold MIN_YEAR, MAX_YEAR in *. lia.
Qed.

Lemma NoDup_years : NoDup years.
Proof.
  unfold years, range. apply NoDup_map_NoDup_ForallPairs; [|apply seq_NoDup].
  intros i j _ _ H. cbv beta in H. lia.
Qed.

Lemma length_years : List.length years = 63%nat.
Proof. reflexivity. Qed.

Lemma has_schema_inv file :
  has_schema file = true ->
  has_column "GDP" (read_csv file) = false /\
  has_column "Country Code" (read_csv file) = true /\
  (forall y, In y years -> has_column (str y) (read_csv file) = true).
Proof.
  unfold has_schema. intros H.
  apply andb_true_iff in H. destruct H as [H H3].
  apply andb_true_iff in H. destruct H as [H1 H2].
  apply negb_true_iff in H1. rewrite forallb_forall in H3. auto.
Qed.

Lemma has_schema_false file :
  has_schema file = false ->
  has_column "GDP" (read_csv file) = true \/
  has_column "Country Code" (read_csv file) = false \/
  (exists y, In y years /\ has_column (str y) (read_csv file) = false).
Proof.
  unfold has_schema. intros H.
  destruct (has_column "GDP" (read_csv file)); [now left|right].
  destruct (has_column "Country Code" (read_csv file)); [right|now left].
  change (forallb (fun y => has_column (str y) (read_csv file)) years = false) in H.
  clear -H.
  induction years as [|y ys IH]; simpl in H; [discriminate|].
  destruct (has_column (str y) (read_csv file)) eqn:E.
  - destruct (IH H) as [z [Hz Hc]]. exists z. split; [now right|exact Hc].
  - exists y. split; [now left|exact E].
Qed.

Lemma load_gdp_data_Ok to_numeric file :
  reads_years to_numeric ->
  has_schema file = true ->
  load_gdp_data to_numeric file = Ok (tidy_rows file).
Proof.
  intros Hnum Hschema.
  destruct (has_schema_inv file Hschema) as [Hname [Hid Hall]].
  unfold load_gdp_data.
  change (range MIN_YEAR (MAX_YEAR + 1)) with years.
  rewrite melt_Ok; [|exact Hname|exact Hid|].
  - unfold bind. rewrite numeric_years_blocks; [reflexivity|].
    intros y Hy. apply Hnum. now apply in_years.
  - intros v Hv. apply in_map_iff in Hv. destruct Hv as [y [<- Hy]]. now apply Hall.
Qed.

Lemma load_gdp_data_ValueError to_numeric file :
  has_column "GDP" (read_csv file) = true ->
  load_gdp_data to_numeric file = Raise (ValueError "GDP").
Proof. intros H. unfold load_gdp_data. now rewrite melt_ValueError. Qed.

Lemma load_gdp_data_KeyError to_numeric file :
  has_column "GDP" (read_csv file) = false ->
  has_column "Country Code" (read_csv file) = false \/
  (exists y, In y years /\ has_column (str y) (read_csv file) = false) ->
  exists labels,
    load_gdp_data to_numeric file = Raise (KeyError labels) /\
    labels <> [] /\
    (forall l, In l labels <->
               (l = "Country Code" \/ exists y, In y years /\ l = str y) /\
               has_column l (read_csv file) = false).
Proof.
  intros Hname H. unfold load_gdp_data.
  change (range MIN_YEAR (MAX_YEAR + 1)) with years.
  destruct (melt_KeyError (read_csv file) "Country Code" (map str years) "GDP" Hname)
    as [labels [Hm Hin]].
  - destruct H as [H|[y [Hy Hc]]].
    + exists "Country Code". split; [now left|exact H].
    + exists (str y). split; [right; now apply in_map|exact Hc].
  - exists labels. rewrite Hm. split; [reflexivity|].
    assert (Hchar : forall l, In l labels <->
               (l = "Country Code" \/ exists y, In y years /\ l = str y) /\
               has_column l (read_csv file) = false).
    { intros l. rewrite Hin.
      change (In l ("Country Code" :: map str years))
        with ("Country Code" = l \/ In l (map str years)).
      rewrite in_map_iff. split.
      - intros [[<-|[y [<- Hy]]] Hc]; split; auto. right. now exists y.
      - intros [[->|[y [Hy ->]]] Hc]; split; auto. right. now exists y. }
    split; [|exact Hchar].
    intros ->. destruct H as [H|[y [Hy Hc]]].
    + apply (Hchar "Country Code"). split; [now left|exact H].
    + apply (Hchar (str y)). split; [right; now exists y|exact Hc].
Qed.

Lemma load_gdp_data_schema to_numeric file gdp_df :
  reads_years to_numeric ->
  load_gdp_data to_numeric file = Ok gdp_df ->
  has_schema file = true /\ gdp_df = tidy_rows file.
Proof.
  intros Hnum H.
  destruct (has_schema file) eqn:Hs.
  - rewrite (load_gdp_data_Ok to_numeric file Hnum Hs) in H. split; congruence.
  - exfalso. destruct (has_column "GDP" (read_csv file)) eqn:Hname.
    + rewrite (load_gdp_data_ValueError to_numeric file Hname) in H. discriminate.
    + destruct (has_schema_false file Hs) as [Hg|Hmiss]; [congruence|].
      destruct (load_gdp_data_KeyError to_numeric file Hname Hmiss) as [l [Hl _]].
      congruence.
Qed.

(** * The loaded table, row by row *)

Lemma csv_rows_lengths file n :
  csv_rows file n = true ->
  forall label cells,
    column label (read_csv file) = Some cells -> List.length cells = n.
Proof.
  unfold csv_rows. intros H label cells. rewrite column_read_csv.
  induction file as [|[l f] file IH]; simpl in *; [discriminate|].
  apply andb_true_iff in H. destruct H as [H1 H2].
  destruct (String.eqb l label).
  - simpl. intros E. injection E as <-. now apply Nat.eqb_eq.
  - now apply IH.
Qed.

Lemma length_code_cells file n :
  csv_rows file n = true ->
  has_column "Country Code" (read_csv file) = true ->
  List.length (code_cells file) = n.
Proof.
  intros Hrows Hid. unfold code_cells, has_column in *.
  destruct (column "Country Code" (read_csv file)) as [cells|] eqn:E; [|discriminate].
  exact (csv_rows_lengths file n Hrows _ _ E).
Qed.

(** Blocks of equal length laid side by side: where the entry of block [j]
    at offset [i] lands. *)
Lemma nth_error_flat_map_blocks {A B : Type} (f : A -> list B) (n : nat) :
  forall (l : list A) (j i : nat) (x : A),
    (forall a, In a l -> List.length (f a) = n) ->
    nth_error l j = Some x -> (i < n)%nat ->
    nth_error (flat_map f l) (j * n + i) = nth_error (f x) i.
Proof.
  induction l as [|a l IH]; intros j i x Hlen Hj Hi.
  - destruct j; discriminate.
  - simpl. destruct j as [|j]; simpl in Hj.
    + injection Hj as ->. simpl.
      rewrite nth_error_app1; [reflexivity|].
      rewrite (Hlen x (or_introl eq_refl)). exact Hi.
    + rewrite nth_error_app2; rewrite (Hlen a (or_introl eq_refl)); [|simpl; lia].
      replace (S j * n + i - n)%nat with (j * n + i)%nat by (simpl; lia).
      apply IH; auto. intros b Hb. apply Hlen. now right.
Qed.

Lemma length_flat_map_blocks {A B : Type} (f : A -> list B) (n : nat) (l : list A) :
  (forall a, In a l -> List.length (f a) = n) ->
  List.length (flat_map f l) = (List.length l * n)%nat.
Proof.
  induction l as [|a l IH]; intros H; simpl; [reflexivity|].
  rewrite length_app, (H a (or_introl eq_refl)), IH; [reflexivity|].
  intros b Hb. apply H. now right.
Qed.

Lemma nth_error_combine {A B : Type} (l : list A) (l' : list B) i a b :
  nth_error l i = Some a -> nth_error l' i = Some b ->
  nth_error (combine l l') i = Some (a, b).
Proof.
  revert l' i. induction l as [|x l IH]; intros [|y l'] [|i]; simpl;
    try discriminate.
  - congruence.
  - apply IH.
Qed.

Section Rows.
Variable file : CsvFile.
Variable n : nat.
Hypothesis Hrows : csv_rows file n = true.
Hypothesis Hschema : has_schema file = true.

Lemma year_column y :
  In y years ->
  exists values,
    column (str y) (read_csv file) = Some values /\ List.length values = n.
Proof.
  intros Hy. destruct (has_schema_inv file Hschema) as [_ [_ Hall]].
  specialize (Hall y Hy). unfold has_column in Hall.
  destruct (column (str y) (read_csv file)) as [values|] eqn:E; [|discriminate].
  exists values. split; [reflexivity|]. exact (csv_rows_lengths file n Hrows _ _ E).
Qed.

Lemma length_code_column_cells : List.length (code_cells file) = n.
Proof.
  destruct (has_schema_inv file Hschema) as [_ [Hid _]].
  now apply length_code_cells.
Qed.

Lemma length_row_block y :
  In y years ->
  List.length match column (str y) (read_csv file) with
              | Some values => row_block (code_cells file) values y
              | None => []
              end = n.
Proof.
  intros Hy. destruct (year_column y Hy) as [values [-> Hlen]].
  unfold row_block. rewrite length_map, length_combine, Hlen, length_code_column_cells.
  apply Nat.min_id.
Qed.

Lemma length_tidy_rows : List.length (tidy_rows file) = (n * 63)%nat.
Proof.
  unfold tidy_rows.
  rewrite (length_flat_map_blocks _ n years length_row_block), length_years.
  apply Nat.mul_comm.
Qed.

Lemma nth_error_tidy_rows i y c values v :
  MIN_YEAR <= y <= MAX_YEAR ->
  nth_error (code_cells file) i = Some c ->
  column (str y) (read_csv file) = Some values ->
  nth_error values i = Some v ->
  nth_error (tidy_rows file) (Z.to_nat (y - MIN_YEAR) * n + i) = Some (mkRow c y v).
Proof.
  intros Hy Hcode Hcol Hv. unfold tidy_rows.
  rewrite (nth_error_flat_map_blocks _ n years _ i y length_row_block
             (nth_error_years y Hy)).
  - rewrite Hcol. unfold row_block.
    rewrite nth_error_map, (nth_error_combine _ _ _ _ _ Hcode Hv). reflexivity.
  - rewrite <- (csv_rows_lengths file n Hrows _ _ Hcol).
    apply nth_error_Some. congruence.
Qed.
End Rows.

Lemma in_tidy_rows file r :
  In r (tidy_rows file) ->
  exists values,
    In (row_year r) years /\
    column (str (row_year r)) (read_csv file) = Some values /\
    In (row_code r, row_gdp r) (combine (code_cells file) values).
Proof.
  unfold tidy_rows. intros H. apply in_flat_map in H. destruct H as [y [Hy H]].
  destruct (column (str y) (read_csv file)) as [values|] eqn:E; [|destruct H].
  unfold row_block in H. apply in_map_iff in H. destruct H as [[c v] [<- Hin]].
  simpl. exists values. auto.
Qed.

(** * Tables of observations *)

Lemma observations_app a b :
  observations (a ++ b) =
  match observations a, observations b with
  | Some x, Some y => Some (x ++ y)
  | _, _ => None
  end.
Proof.
  induction a as [|r a IH]; simpl.
  - now destruct (observations b).
  - rewrite IH.
    destruct (observation r), (observations a), (observations b); reflexivity.
Qed.

Lemma length_texts cells : forall codes,
  texts cells = Some codes -> List.length codes = List.length cells.
Proof.
  induction cells as [|[s|x] cells IH]; intros codes H; simpl in H.
  - now injection H as <-.
  - destruct (texts cells) as [l|]; [|discriminate].
    injection H as <-. simpl. now rewrite (IH l).
  - discriminate.
Qed.

Lemma length_numbers cells : forall values,
  numbers cells = Some values -> List.length values = List.length cells.
Proof.
  induction cells as [|[s|x] cells IH]; intros values H; simpl in H.
  - now injection H as <-.
  - discriminate.
  - destruct (numbers cells) as [l|]; [|discriminate].
    injection H as <-. simpl. now rewrite (IH l).
Qed.

Lemma nth_error_texts cells : forall codes i code,
  texts cells = Some codes ->
  (nth_error cells i = Some (Str code) <-> nth_error codes i = Some code).
Proof.
  induction cells as [|[s|x] cells IH]; intros codes i code H; simpl in H.
  - injection H as <-. destruct i; simpl; split; discriminate.
  - destruct (texts cells) as [l|] eqn:E; [|discriminate].
    injection H as <-. destruct i as [|i]; simpl.
    + split; congruence.
    + now apply IH.
  - discriminate.
Qed.

Lemma nth_error_numbers cells : forall values i v,
  numbers cells = Some values ->
  (nth_error cells i = Some (Num v) <-> nth_error values i = Some v).
Proof.
  induction cells as [|[s|x] cells IH]; intros values i v H; simpl in H.
  - injection H as <-. destruct i; simpl; split; discriminate.
  - discriminate.
  - destruct (numbers cells) as [l|] eqn:E; [|discriminate].
    injection H as <-. destruct i as [|i]; simpl.
    + split; congruence.
    + now apply IH.
Qed.

(** A block of rows is a block of observations exactly when its codes are
    texts and its values numbers. *)
Lemma observations_row_block y codes : forall values,
  List.length codes = List.length values ->
  observations (row_block codes values y) =
  match texts codes, numbers values with
  | Some c, Some v => Some (year_block c v y)
  | _, _ => None
  end.
Proof.
  unfold row_block, year_block.
  induction codes as [|c codes IH]; intros [|x values] H; simpl in H;
    try discriminate; [reflexivity|].
  injection H as H. simpl. rewrite (IH values H). unfold observation. simpl.
  destruct c as [s|g], x as [t|w]; simpl;
    destruct (texts codes), (numbers values); reflexivity.
Qed.

Lemma observations_flat_map {A : Type} (B : A -> list Row) (T : A -> list Observation)
    (l : list A) :
  (forall a, In a l -> observations (B a) = Some (T a)) ->
  observations (flat_map B l) = Some (flat_map T l).
Proof.
  induction l as [|a l IH]; intros H; simpl; [reflexivity|].
  rewrite observations_app, (H a (or_introl eq_refl)), IH; [reflexivity|].
  intros b Hb. apply H. now right.
Qed.

Lemma observations_flat_map_In {A : Type} (B : A -> list Row) (l : list A) gdp_df :
  observations (flat_map B l) = Some gdp_df ->
  forall a, In a l -> exists os, observations (B a) = Some os.
Proof.
  revert gdp_df. induction l as [|a l IH]; intros gdp_df H b Hb; [destruct Hb|].
  simpl in H. rewrite observations_app in H.
  destruct (observations (B a)) as [x|] eqn:Ea; [|discriminate].
  destruct (observations (flat_map B l)) as [z|] eqn:El; [|discriminate].
  destruct Hb as [<-|Hb]; [now exists x|]. now apply (IH z).
Qed.

(** A loaded table that is a table of observations: the codes of the file are
    texts, its year columns hold numbers, and the observations are the blocks
    of the years in order. *)
Lemma observations_tidy_rows file n gdp_df :
  csv_rows file n = true ->
  has_schema file = true ->
  observations (tidy_rows file) = Some gdp_df ->
  texts (code_cells file) = Some (code_column file) /\
  List.length (code_column file) = n /\
  (forall y, In y years ->
             exists values, year_numbers file y = Some values /\
                            List.length values = n) /\
  gdp_df = tidy file (code_column file).
Proof.
  intros Hrows Hschema Hobs. unfold tidy_rows in Hobs.
  assert (Hblock : forall y, In y years ->
            exists values c v,
              column (str y) (read_csv file) = Some values /\
              List.length values = n /\
              texts (code_cells file) = Some c /\ numbers values = Some v).
  { intros y Hy.
    destruct (observations_flat_map_In _ _ _ Hobs y Hy) as [os Hos].
    destruct (year_column file n Hrows Hschema y Hy) as [values [Hcol Hlen]].
    rewrite Hcol in Hos. rewrite observations_row_block in Hos.
    - destruct (texts (code_cells file)) as [c|] eqn:Ec; [|discriminate].
      destruct (numbers values) as [v|] eqn:Ev; [|discriminate].
      exists values, c, v. repeat split; auto.
    - now rewrite Hlen, (length_code_column_cells file n Hrows Hschema). }
  assert (Hcodes : texts (code_cells file) = Some (code_column file)).
  { destruct (Hblock MIN_YEAR) as [_ [c [_ [_ [_ [Hc _]]]]]].
    - apply in_years. unfold MIN_YEAR, MAX_YEAR. lia.
    - unfold code_column. now rewrite Hc. }
  assert (Hyears : forall y, In y years ->
            exists values, year_numbers file y = Some values /\
                           List.length values = n).
  { intros y Hy. destruct (Hblock y Hy) as [values [_ [v [Hcol [Hlen [_ Hv]]]]]].
    exists v. unfold year_numbers. rewrite Hcol. split; [exact Hv|].
    now rewrite (length_numbers _ _ Hv). }
  split; [exact Hcodes|]. split; [|split; [exact Hyears|]].
  - rewrite (length_texts _ _ Hcodes).
    apply (length_code_column_cells file n Hrows Hschema).
  - assert (Hflat : observations
                      (flat_map
                         (fun y =>
                            match column (str y) (read_csv file) with
                            | Some values => row_block (code_cells file) values y
                            | None => []
                            end) years)
                    = Some (tidy file (code_column file))).
    { unfold tidy. apply observations_flat_map. intros y Hy.
      destruct (Hblock y Hy) as [values [c [v [Hcol [Hlen [Hc Hv]]]]]].
      unfold year_numbers. rewrite Hcol, observations_row_block.
      - rewrite Hcodes, Hv. reflexivity.
      - now rewrite Hlen, (length_code_column_cells file n Hrows Hschema). }
    congruence.
Qed.

(** The loaded table as observations, in one step. *)
Lemma loaded_observations to_numeric file n rows gdp_df :
  reads_years to_numeric ->
  load_gdp_data to_numeric file = Ok rows ->
  observations rows = Some gdp_df ->
  csv_rows file n = true ->
  has_schema file = true /\
  texts (code_cells file) = Some (code_column file) /\
  List.length (code_column file) = n /\
  (forall y, In y years ->
             exists values, year_numbers file y = Some values /\
                            List.length values = n) /\
  gdp_df = tidy file (code_column file).
Proof.
  intros Hnum Hload Hobs Hrows.
  destruct (load_gdp_data_schema _ _ _ Hnum Hload) as [Hschema ->].
  split; [exact Hschema|]. now apply observations_tidy_rows.
Qed.

Lemma filter_flat_map {A B : Type} (p : B -> bool) (f : A -> list B) (l : list A) :
  filter p (flat_map f l) = flat_map (fun a => filter p (f a)) l.
Proof.
  induction l as [|a l IH]; simpl; [reflexivity|].
  now rewrite filter_app, IH.
Qed.

Lemma flat_map_nil {A B : Type} (g : A -> list B) (l : list A) :
  (forall a, In a l -> g a = []) -> flat_map g l = [].
Proof.
  induction l as [|a l IH]; intros H; simpl; [reflexivity|].
  rewrite (H a (or_introl eq_refl)), IH; [reflexivity|].
  intros b Hb. apply H. now right.
Qed.

Lemma filter_map {A B : Type} (p : B -> bool) (f : A -> B) (l : list A) :
  filter p (map f l) = map f (filter (fun a => p (f a)) l).
Proof.
  induction l as [|a l IH]; simpl; [reflexivity|].
  destruct (p (f a)); simpl; now rewrite IH.
Qed.

Lemma flat_map_single {A B : Type} (g : A -> list B) (l : list A) (x : A) :
  NoDup l -> In x l -> (forall a, In a l -> a <> x -> g a = []) ->
  flat_map g l = g x.
Proof.
  induction 1 as [|a l Ha Hl IH]; intros Hx Hg; [destruct Hx|].
  simpl. destruct Hx as [->|Hx].
  - replace (flat_map g l) with (@nil B); [apply app_nil_r|].
    symmetry. apply flat_map_nil. intros b Hb. apply Hg; [now right|].
    intros ->. contradiction.
  - rewrite (Hg a (or_introl eq_refl)) by (intros ->; contradiction).
    simpl. apply IH; [exact Hx|]. intros b Hb. apply Hg. now right.
Qed.


Lemma map_fst_combine {A B : Type} (l : list A) (l' : list B) :
  List.length l = List.length l' -> map fst (combine l l') = l.
Proof.
  revert l'. induction l as [|a l IH]; intros [|b l'] H; simpl in *;
    try discriminate; [reflexivity|].
  f_equal. apply IH. now injection H.
Qed.

Lemma find_combine_first {B : Type} (codes : list string) :
  forall (cells : list B) (i : nat) (c : string) (cell : B),
    nth_error codes i = Some c ->
    (forall j, (j < i)%nat -> nth_error codes j <> Some c) ->
    nth_error cells i = Some cell ->
    find (fun cv => String.eqb (fst cv) c) (combine codes cells) = Some (c, cell).
Proof.
  induction codes as [|x codes IH]; intros cells i c cell Hc Hfirst Hv.
  - destruct i; discriminate.
  - destruct cells as [|v cells]; [destruct i; discriminate|].
    destruct i as [|i]; simpl in Hc, Hv; simpl.
    + injection Hc as ->. injection Hv as ->. now rewrite String.eqb_refl.
    + replace (String.eqb x c) with false.
      * apply (IH cells i); auto. intros j Hj. apply (Hfirst (S j)). lia.
      * symmetry. apply String.eqb_neq. intros ->.
        apply (Hfirst 0%nat); [lia|reflexivity].
Qed.

Lemma in_tidy file codes o :
  In o (tidy file codes) ->
  exists values,
    In (Year o) years /\
    year_numbers file (Year o) = Some values /\
    In (Country_Code o, GDP o) (combine codes values).
Proof.
  unfold tidy. intros H. apply in_flat_map in H. destruct H as [y [Hy H]].
  destruct (year_numbers file y) as [values|] eqn:E; [|destruct H].
  unfold year_block in H. apply in_map_iff in H. destruct H as [[code v] [<- Hin]].
  simpl. exists values. auto.
Qed.


Lemma year_slice_tidy file codes y :
  year_slice (tidy file codes) y =
  if (MIN_YEAR <=? y) && (y <=? MAX_YEAR) then
    match year_numbers file y with
    | Some values => year_block codes values y
    | None => []
    end
  else [].
Proof.
  rewrite year_slice_filter. unfold tidy. rewrite filter_flat_map.
  assert (Hother : forall y', y' <> y ->
            filter (fun o => Year o =? y)
              match year_numbers file y' with
              | Some values => year_block codes values y'
              | None => []
              end = []).
  { intros y' Hne. destruct (year_numbers file y'); [|reflexivity].
    apply filter_nil_iff. intros o Ho. unfold year_block in Ho.
    apply in_map_iff in Ho. destruct Ho as [cv [<- _]]. simpl. now apply Z.eqb_neq. }
  destruct ((MIN_YEAR <=? y) && (y <=? MAX_YEAR)) eqn:Hy.
  - apply andb_true_iff in Hy. rewrite !Z.leb_le in Hy.
    rewrite (flat_map_single _ years y NoDup_years (proj2 (in_years y) Hy)).
    + destruct (year_numbers file y); [|reflexivity].
      unfold year_block. rewrite filter_map.
      rewrite (filter_ext _ (fun _ => true)) by (intros cv; apply Z.eqb_refl).
      clear. f_equal. induction (combine codes l) as [|a l' IH]; simpl; congruence.
    + intros y' _ Hne. now apply Hother.
  - apply flat_map_nil. intros y' Hy'. apply Hother. intros ->.
    apply in_years in Hy'. apply andb_false_iff in Hy. rewrite !Z.leb_gt in Hy. lia.
Qed.

Lemma gdp_at_tidy_first file codes i c y values v :
  nth_error codes i = Some c ->
  (forall j, (j < i)%nat -> nth_error codes j <> Some c) ->
  MIN_YEAR <= y <= MAX_YEAR ->
  year_numbers file y = Some values ->
  nth_error values i = Some v ->
  gdp_at (tidy file codes) c y = Some v.
Proof.
  intros Hc Hfirst Hy Hcol Hv. unfold gdp_at.
  rewrite hd_filter_find.
  rewrite <- (filter_filter (fun o => String.eqb (Country_Code o) c)
                            (fun o => Year o =? y)).
  rewrite <- year_slice_filter, year_slice_tidy.
  replace ((MIN_YEAR <=? y) && (y <=? MAX_YEAR)) with true
    by (symmetry; apply andb_true_iff; rewrite !Z.leb_le; exact Hy).
  rewrite Hcol. unfold year_block. rewrite filter_map.
  pose proof (find_combine_first codes values i c v Hc Hfirst Hv) as Hf.
  rewrite hd_filter_find in Hf. simpl.
  destruct (filter _ (combine codes values)) as [|cv rest]; [discriminate|].
  injection Hf as ->. reflexivity.
Qed.

Section Typed.
Variable file : CsvFile.
Variable n : nat.
Variable codes : list string.
Hypothesis Hcodes : List.length codes = n.
Hypothesis Hyears :
  forall y, In y years ->
            exists values, year_numbers file y = Some values /\ List.length values = n.

Lemma length_year_block y :
  In y years ->
  List.length match year_numbers file y with
              | Some values => year_block codes values y
              | None => []
              end = n.
Proof.
  intros Hy. destruct (Hyears y Hy) as [values [-> Hlen]].
  unfold year_block. rewrite length_map, length_combine, Hlen, Hcodes.
  apply Nat.min_id.
Qed.

Lemma nth_error_tidy i y code values v :
  MIN_YEAR <= y <= MAX_YEAR ->
  nth_error codes i = Some code ->
  year_numbers file y = Some values ->
  nth_error values i = Some v ->
  nth_error (tidy file codes) (Z.to_nat (y - MIN_YEAR) * n + i)
  = Some (mkObs code y v).
Proof.
  intros Hy Hcode Hcol Hv. unfold tidy.
  rewrite (nth_error_flat_map_blocks _ n years _ i y length_year_block
             (nth_error_years y Hy)).
  - rewrite Hcol. unfold year_block.
    rewrite nth_error_map, (nth_error_combine _ _ _ _ _ Hcode Hv). reflexivity.
  - rewrite <- Hcodes. apply nth_error_Some. congruence.
Qed.

Lemma year_cell i y code :
  In y years -> nth_error codes i = Some code ->
  exists values v, year_numbers file y = Some values /\ nth_error values i = Some v.
Proof.
  intros Hy Hcode. destruct (Hyears y Hy) as [values [Hcol Hlen]].
  assert (Hi : (i < List.length values)%nat).
  { rewrite Hlen, <- Hcodes. apply nth_error_Some. congruence. }
  destruct (nth_error values i) as [v|] eqn:E.
  - now exists values, v.
  - apply nth_error_None in E. lia.
Qed.

Lemma gdp_at_tidy c y :
  In c codes -> MIN_YEAR <= y <= MAX_YEAR ->
  exists v, gdp_at (tidy file codes) c y = Some v.
Proof.
  intros Hc Hy. destruct (In_nth_error _ _ Hc) as [i Hi].
  destruct (year_cell i y c (proj2 (in_years y) Hy) Hi) as [values [v [Hcol Hv]]].
  pose proof (nth_error_tidy i y c values v Hy Hi Hcol Hv) as Hn.
  apply nth_error_In in Hn. unfold gdp_at.
  destruct (find _ (tidy file codes)) as [o|] eqn:Ef.
  - now exists (GDP o).
  - apply (find_none _ _ Ef) in Hn. simpl in Hn.
    rewrite Z.eqb_refl, String.eqb_refl in Hn. discriminate.
Qed.

Lemma year_slice_codes y :
  MIN_YEAR <= y <= MAX_YEAR ->
  map Country_Code (year_slice (tidy file codes) y) = codes /\
  Forall (fun o => Year o = y) (year_slice (tidy file codes) y).
Proof.
  intros Hy. rewrite year_slice_tidy.
  replace ((MIN_YEAR <=? y) && (y <=? MAX_YEAR)) with true
    by (symmetry; apply andb_true_iff; rewrite !Z.leb_le; exact Hy).
  destruct (Hyears y (proj2 (in_years y) Hy)) as [values [-> Hlen]].
  unfold year_block. split.
  - rewrite map_map. simpl. apply map_fst_combine. now rewrite Hlen.
  - apply Forall_forall. intros o Ho. apply in_map_iff in Ho.
    now destruct Ho as [cv [<- _]].
Qed.
End Typed.

Lemma selected_true_iff countries from_year to_year o :
  selected countries from_year to_year o = true <->
  In (Country_Code o) countries /\ from_year <= Year o <= to_year.
Proof.
  unfold selected. rewrite !andb_true_iff, existsb_exists, !Z.leb_le. split.
  - intros [[[c [Hc He]] H1] H2]. apply String.eqb_eq in He. subst c. auto.
  - intros [Hc [H1 H2]]. repeat split; auto.
    exists (Country_Code o). split; [exact Hc|apply String.eqb_refl].
Qed.


(** * What the load reads *)

Lemma melt_ext raw raw' id_var value_vars value_name :
  has_column value_name raw = has_column value_name raw' ->
  (forall l, In l (id_var :: value_vars) -> column l raw = column l raw') ->
  melt raw id_var value_vars value_name = melt raw' id_var value_vars value_name.
Proof.
  intros Hname Hv. unfold melt. rewrite Hname.
  destruct (has_column value_name raw'); [reflexivity|].
  rewrite (filter_ext_in (fun l => negb (has_column l raw))
                         (fun l => negb (has_column l raw')))
    by (intros l Hl; unfold has_column; now rewrite (Hv l Hl)).
  rewrite (Hv id_var (or_introl eq_refl)).
  destruct (filter _ (id_var :: value_vars)); [|reflexivity].
  f_equal.
  assert (Hvars : forall v, In v value_vars -> column v raw = column v raw')
    by (intros v Hin; apply Hv; now right).
  clear -Hvars. induction value_vars as [|v vs IH]; simpl; [reflexivity|].
  rewrite (Hvars v (or_introl eq_refl)), IH; [reflexivity|].
  intros w Hw. apply Hvars. now right.
Qed.

Lemma load_gdp_data_ext to_numeric file file' :
  has_column "GDP" (read_csv file) = has_column "GDP" (read_csv file') ->
  column "Country Code" file = column "Country Code" file' ->
  (forall y, MIN_YEAR <= y <= MAX_YEAR ->
             column (str y) file = column (str y) file') ->
  load_gdp_data to_numeric file = load_gdp_data to_numeric file'.
Proof.
  intros Hname Hid Hy. unfold load_gdp_data.
  rewrite (melt_ext (read_csv file) (read_csv file')); [reflexivity|exact Hname|].
  intros l [<-|Hl].
  - now rewrite !column_read_csv, Hid.
  - apply in_map_iff in Hl. destruct Hl as [y [<- Hin]].
    change (range MIN_YEAR (MAX_YEAR + 1)) with years in Hin.
    now rewrite !column_read_csv, (Hy y (proj1 (in_years y) Hin)).
Qed.

Lemma column_insert {A : Type} label header (data : A) before after :
  label <> header ->
  column label (before ++ (header, data) :: after) = column label (before ++ after).
Proof.
  intros Hne. induction before as [|[l d] before IH]; simpl.
  - replace (String.eqb header label) with false; [reflexivity|].
    symmetry. apply String.eqb_neq. congruence.
  - now rewrite IH.
Qed.

(** * The reshape and the selection *)

(** C5, as amended.  Completeness of the reshape: a file with [n] rows that
    has the country-code column and the 63 year columns 1960..2022, and no
    column named GDP, loads into [n * 63] rows, and the row of source row [i]
    and year [y] stands at position [(y - 1960) * n + i], so that no
    (row, year) pair is skipped or repeated. *)
Theorem reshape_completeness to_numeric file n :
  reads_years to_numeric ->
  csv_rows file n = true ->
  has_schema file = true ->
  exists gdp_df,
    load_gdp_data to_numeric file = Ok gdp_df /\
    List.length gdp_df = (n * 63)%nat /\
    (forall i y c,
        nth_error (code_cells file) i = Some c ->
        MIN_YEAR <= y <= MAX_YEAR ->
        exists v,
          nth_error gdp_df (Z.to_nat (y - MIN_YEAR) * n + i) = Some (mkRow c y v)).
Proof.
  intros Hnum Hrows Hschema.
  exists (tidy_rows file). split; [|split].
  - now apply load_gdp_data_Ok.
  - now apply length_tidy_rows.
  - intros i y c Hcode Hy.
    destruct (year_column file n Hrows Hschema y (proj2 (in_years y) Hy))
      as [values [Hcol Hlen]].
    assert (Hi : (i < List.length values)%nat).
    { rewrite Hlen, <- (length_code_column_cells file n Hrows Hschema).
      apply nth_error_Some. congruence. }
    destruct (nth_error values i) as [v|] eqn:Ev.
    + exists v. now apply (nth_error_tidy_rows file n Hrows Hschema i y c values).
    + apply nth_error_None in Ev. lia.
Qed.

Lemma reshape_completeness_witness :
  exists gdp_df,
    load_gdp_data read_decimal sample_file = Ok gdp_df /\
    List.length gdp_df = (2 * 63)%nat /\
    (forall i y c,
        nth_error (code_cells sample_file) i = Some c ->
        MIN_YEAR <= y <= MAX_YEAR ->
        exists v,
          nth_error gdp_df (Z.to_nat (y - MIN_YEAR) * 2 + i) = Some (mkRow c y v)).
Proof.
  apply (reshape_completeness read_decimal sample_file 2).
  - exact read_decimal_years.
  - vm_compute; reflexivity.
  - vm_compute; reflexivity.
Defined.

(** C5, as stated, fails: a file with the country-code column and every
    year column that also has a column named GDP is refused by [melt], which
    would name its value column so; no table is returned. *)
Lemma reshape_refuses_gdp_column :
  ~ (forall file n,
        csv_rows file n = true ->
        has_column "Country Code" (read_csv file) = true ->
        (forall y, MIN_YEAR <= y <= MAX_YEAR ->
                   has_column (str y) (read_csv file) = true) ->
        exists gdp_df,
          load_gdp_data read_decimal file = Ok gdp_df /\
          List.length gdp_df = (n * 63)%nat).
Proof.
  intros H.
  destruct (H (sample_file ++ [("GDP", NumberFields [Some 1%float; Some 2%float])])
              2%nat) as [gdp_df [Hload _]].
  - vm_compute. reflexivity.
  - vm_compute. reflexivity.
  - intros y Hy. apply in_years in Hy. revert y Hy.
    apply Forall_forall. vm_compute. repeat constructor.
  - vm_compute in Hload. discriminate Hload.
Qed.

(** C6.  Missing-value propagation: the row emitted for source row [i] and
    year [y] carries the field of the year's column verbatim; when the field
    is empty its GDP is the missing sentinel NaN, which is not zero. *)
Theorem missing_value_propagation to_numeric file n gdp_df i y c year_fields field :
  reads_years to_numeric ->
  load_gdp_data to_numeric file = Ok gdp_df ->
  csv_rows file n = true ->
  MIN_YEAR <= y <= MAX_YEAR ->
  nth_error (code_cells file) i = Some c ->
  column (str y) file = Some (NumberFields year_fields) ->
  nth_error year_fields i = Some field ->
  exists r,
    nth_error gdp_df (Z.to_nat (y - MIN_YEAR) * n + i) = Some r /\
    row_code r = c /\ row_year r = y /\
    (field = None ->
     exists x, row_gdp r = Num x /\ is_nan x = true /\ (x =? 0)%float = false) /\
    (forall v, field = Some v -> row_gdp r = Num v).
Proof.
  intros Hnum Hload Hrows Hy Hcode Hcol Hfield.
  destruct (load_gdp_data_schema _ _ _ Hnum Hload) as [Hschema ->].
  exists (mkRow c y (Num (na_value field))). split; [|split; [|split; [|split]]].
  - apply (nth_error_tidy_rows file n Hrows Hschema i y c
             (read_fields (NumberFields year_fields))); auto.
    + now rewrite column_read_csv, Hcol.
    + simpl. now rewrite nth_error_map, Hfield.
  - reflexivity.
  - reflexivity.
  - intros ->. exists nan. repeat split; reflexivity.
  - intros v ->. reflexivity.
Qed.

Lemma missing_value_propagation_witness :
  exists r,
    nth_error (tidy_rows sample_file) (Z.to_nat (1975 - MIN_YEAR) * 2 + 1) = Some r /\
    row_code r = Str "FRA" /\ row_year r = 1975 /\
    (@None float = None ->
     exists x, row_gdp r = Num x /\ is_nan x = true /\ (x =? 0)%float = false) /\
    (forall v, None = Some v -> row_gdp r = Num v).
Proof.
  apply (missing_value_propagation read_decimal sample_file 2 (tidy_rows sample_file)
           1 1975 (Str "FRA") [Some 100%float; None] None).
  - exact read_decimal_years.
  - vm_compute; reflexivity.
  - vm_compute; reflexivity.
  - vm_compute; split; discriminate.
  - vm_compute; reflexivity.
  - vm_compute; reflexivity.
  - reflexivity.
Defined.

(** C7, as amended.  When a year column of 1960..2022 is absent the load
    fails: with [KeyError] naming the absent label, or with [ValueError] if
    the file has a column named GDP; no column is skipped and no partial
    table returned.  Headers are not parsed: a column under any other header,
    an integer or not, is left out of the load without a failure. *)
Theorem schema_failure to_numeric :
  (forall file y,
      MIN_YEAR <= y <= MAX_YEAR ->
      has_column (str y) (read_csv file) = false ->
      load_gdp_data to_numeric file = Raise (ValueError "GDP") \/
      exists labels,
        load_gdp_data to_numeric file = Raise (KeyError labels) /\ In (str y) labels) /\
  (forall before after header column_fields,
      header <> "GDP" ->
      header <> "Country Code" ->
      (forall y, MIN_YEAR <= y <= MAX_YEAR -> header <> str y) ->
      load_gdp_data to_numeric (before ++ (header, column_fields) :: after)
      = load_gdp_data to_numeric (before ++ after)).
Proof.
  split.
  - intros file y Hy Hc. apply in_years in Hy.
    destruct (has_column "GDP" (read_csv file)) eqn:Hname.
    + left. now apply load_gdp_data_ValueError.
    + right. destruct (load_gdp_data_KeyError to_numeric file Hname)
        as [labels [Hl [_ Hin]]].
      * right. now exists y.
      * exists labels. split; [exact Hl|]. apply Hin. split; [|exact Hc].
        right. now exists y.
  - intros before after header column_fields H1 H2 H3.
    apply load_gdp_data_ext.
    + unfold has_column. rewrite !column_read_csv.
      rewrite column_insert; [reflexivity|congruence].
    + apply column_insert. congruence.
    + intros y Hy. apply column_insert. intros E. now apply (H3 y Hy).
Qed.

Lemma schema_failure_witness :
  load_gdp_data read_decimal
    [("Country Code", TextFields ["DEU"]); ("1960", NumberFields [Some 1%float])]
    = Raise (ValueError "GDP") \/
  exists labels,
    load_gdp_data read_decimal
      [("Country Code", TextFields ["DEU"]); ("1960", NumberFields [Some 1%float])]
      = Raise (KeyError labels) /\ In (str 1961) labels.
Proof.
  apply (proj1 (schema_failure read_decimal) _ 1961);
    vm_compute; [split; discriminate|reflexivity].
Defined.

(** C7, as stated, fails: a file with every expected column and one more
    column of numbers, whose header is no integer, loads without a failure;
    the column is silently left out. *)
Lemma unparseable_header_is_ignored :
  ~ (forall file header column_numbers,
        In (header, NumberFields column_numbers) file ->
        NilZero.int_of_string header = None ->
        exists e, load_gdp_data read_decimal file = Raise e).
Proof.
  intros H.
  destruct (H (sample_file ++ [("Unnamed: 67", NumberFields [None; None])])
              "Unnamed: 67" [None; None]) as [e He].
  - apply in_or_app. right. now left.
  - reflexivity.
  - vm_compute in He. discriminate He.
Qed.

Lemma typed_code file codes i code :
  texts (code_cells file) = Some codes ->
  nth_error (code_cells file) i = Some (Str code) ->
  nth_error codes i = Some code.
Proof. intros H. now apply nth_error_texts. Qed.

Lemma typed_value file y values year_values i v :
  column (str y) (read_csv file) = Some values ->
  year_numbers file y = Some year_values ->
  nth_error values i = Some (Num v) ->
  nth_error year_values i = Some v.
Proof.
  intros Hcol Hnum. unfold year_numbers in Hnum. rewrite Hcol in Hnum.
  now apply nth_error_numbers.
Qed.





(** * The metric of one country *)

Lemma compute_growth_spec gdp_df c from_year to_year :
  compute_growth gdp_df c from_year to_year =
  match gdp_at gdp_df c from_year, gdp_at gdp_df c to_year with
  | Some v0, Some v1 =>
      Ok (mkMetric (c ++ " GDP")%string
                   (format_f true 0 (v1 / 1e9)%float ++ "B USD")%string
                   (if is_nan v0 then "N/A"
                    else (format_f false 2 ((v1 / 1e9) / (v0 / 1e9))%float ++ "x")%string)
                   (if is_nan v0 then "off" else "normal"))
  | _, _ => Raise IndexError
  end.
Proof.
  unfold compute_growth, metric_card. rewrite !gdp_in_billions_spec.
  destruct (gdp_at gdp_df c from_year) as [v0|]; simpl; [|reflexivity].
  destruct (gdp_at gdp_df c to_year) as [v1|]; simpl; [|reflexivity].
  rewrite is_nan_billions. now destruct (is_nan v0).
Qed.

Lemma suffix_x_not_NA (s : string) : (s ++ "x")%string <> "N/A".
Proof.
  destruct s as [|a [|b [|c [|d s]]]]; simpl; intros H; try discriminate H.
  all: injection H as _ H; try discriminate H.
  all: injection H as _ H; try discriminate H.
  all: injection H as _ H; discriminate H.
Qed.

Lemma format_f_nan (grouping : bool) (p : nat) (x : float) :
  Prim2SF x = S754_nan -> format_f grouping p x = "nan".
Proof. unfold format_f. now intros ->. Qed.

Lemma Prim2SF_nan_div x y :
  Prim2SF x = S754_nan -> Prim2SF (x / y)%float = S754_nan.
Proof. intros H. rewrite FloatAxioms.div_spec, H. reflexivity. Qed.

(** C1, as amended.  When both boundary values are present and the one at
    [from_year] is not NaN, the growth shown is the quotient of the two values
    in billions, each already rounded to binary64, printed with two decimals
    and the suffix x; for 100 and 450 it is 4.50x. *)
Theorem growth_ratio_of_scaled_values :
  (forall gdp_df c from_year to_year v0 v1,
      gdp_at gdp_df c from_year = Some v0 ->
      gdp_at gdp_df c to_year = Some v1 ->
      is_nan v0 = false ->
      exists m,
        compute_growth gdp_df c from_year to_year = Ok m /\
        delta m = (format_f false 2 ((v1 / 1e9) / (v0 / 1e9))%float ++ "x")%string) /\
  (forall gdp_df,
      gdp_at gdp_df "DEU" 1960 = Some 100%float ->
      gdp_at gdp_df "DEU" 2022 = Some 450%float ->
      exists m,
        compute_growth gdp_df "DEU" 1960 2022 = Ok m /\ delta m = "4.50x").
Proof.
  split.
  - intros gdp_df c from_year to_year v0 v1 H0 H1 Hnan.
    rewrite compute_growth_spec, H0, H1, Hnan. eexists. split; reflexivity.
  - intros gdp_df H0 H1.
    rewrite compute_growth_spec, H0, H1. eexists. split; reflexivity.
Qed.

Lemma growth_ratio_of_scaled_values_witness :
  exists m,
    compute_growth [mkObs "DEU" 1960 100; mkObs "FRA" 1960 7; mkObs "DEU" 2022 450]
                   "DEU" 1960 2022 = Ok m /\
    delta m = "4.50x".
Proof.
  apply (proj2 growth_ratio_of_scaled_values); reflexivity.
Defined.

(** C1, as stated, fails: for 800,000,000 and 300,000,000 the quotient of the
    raw values is 0.375 and prints as 0.38x, while the metric shows 0.37x. *)
Lemma growth_ratio_of_raw_values_fails :
  ~ (forall gdp_df c from_year to_year v0 v1,
        gdp_at gdp_df c from_year = Some v0 ->
        gdp_at gdp_df c to_year = Some v1 ->
        is_nan v0 = false ->
        exists m,
          compute_growth gdp_df c from_year to_year = Ok m /\
          delta m = (format_f false 2 (v1 / v0)%float ++ "x")%string).
Proof.
  intros H.
  destruct (H [mkObs "ABW" 1960 800000000; mkObs "ABW" 2022 300000000]
              "ABW" 1960 2022 800000000%float 300000000%float
              eq_refl eq_refl eq_refl) as [m [Hm Hd]].
  vm_compute in Hm. injection Hm as <-. vm_compute in Hd. discriminate Hd.
Qed.

(** C2.  The missing sentinel at [from_year] is told apart from a zero: with a
    NaN there the metric is produced, without any exception, with N/A as its
    growth; with any other value there, zero included, the growth is the
    printed quotient and not N/A. *)
Theorem missing_is_not_zero gdp_df c from_year to_year v0 v1 :
  gdp_at gdp_df c from_year = Some v0 ->
  gdp_at gdp_df c to_year = Some v1 ->
  exists m,
    compute_growth gdp_df c from_year to_year = Ok m /\
    (is_nan v0 = true -> delta m = "N/A" /\ delta_color m = "off") /\
    (is_nan v0 = false \/ (v0 =? 0)%float = true ->
     delta m = (format_f false 2 ((v1 / 1e9) / (v0 / 1e9))%float ++ "x")%string /\
     delta m <> "N/A").
Proof.
  intros H0 H1. rewrite compute_growth_spec, H0, H1. eexists.
  split; [reflexivity|]. simpl. split.
  - intros ->. split; reflexivity.
  - intros H.
    assert (Hnan : is_nan v0 = false).
    { destruct H as [H|H]; [exact H|].
      destruct (is_nan v0) eqn:E; [|reflexivity].
      apply is_nan_Prim2SF in E.
      rewrite FloatAxioms.eqb_spec, E in H. discriminate H. }
    rewrite Hnan. split; [reflexivity|apply suffix_x_not_NA].
Qed.

Lemma missing_is_not_zero_witness :
  exists m,
    compute_growth [mkObs "XYZ" 1960 nan; mkObs "XYZ" 2022 200] "XYZ" 1960 2022 = Ok m /\
    (is_nan nan = true -> delta m = "N/A" /\ delta_color m = "off") /\
    (is_nan nan = false \/ (nan =? 0)%float = true ->
     delta m = (format_f false 2 ((200 / 1e9) / (nan / 1e9))%float ++ "x")%string /\
     delta m <> "N/A").
Proof.
  apply (missing_is_not_zero [mkObs "XYZ" 1960 nan; mkObs "XYZ" 2022 200]
           "XYZ" 1960 2022 nan 200%float); reflexivity.
Defined.

(** C10.  Only the value at [from_year] is tested for NaN: when it is a
    number and the value at [to_year] is NaN, the metric is not N/A; its value
    and its growth are the printed NaN. *)
Theorem nan_at_year_to_is_printed gdp_df c from_year to_year v0 v1 :
  gdp_at gdp_df c from_year = Some v0 ->
  gdp_at gdp_df c to_year = Some v1 ->
  is_nan v0 = false ->
  is_nan v1 = true ->
  compute_growth gdp_df c from_year to_year
  = Ok (mkMetric (c ++ " GDP")%string "nanB USD" "nanx" "normal").
Proof.
  intros H0 H1 Hn0 Hn1. rewrite compute_growth_spec, H0, H1, Hn0.
  apply is_nan_Prim2SF in Hn1.
  pose proof (Prim2SF_nan_div v1 1e9 Hn1) as Hq.
  rewrite (format_f_nan true 0 _ Hq).
  rewrite (format_f_nan false 2 _ (Prim2SF_nan_div _ (v0 / 1e9)%float Hq)).
  reflexivity.
Qed.

Lemma nan_at_year_to_is_printed_witness :
  compute_growth [mkObs "ERI" 1992 477101651.5; mkObs "ERI" 2022 nan] "ERI" 1992 2022
  = Ok (mkMetric "ERI GDP" "nanB USD" "nanx" "normal").
Proof.
  apply (nan_at_year_to_is_printed _ "ERI" 1992 2022 477101651.5%float nan);
    reflexivity.
Defined.

(** * The loop over the selected countries *)

Section Loop.
Variables first_year_data last_year_data : list Observation.

Lemma draw_metrics_keeps countries : forall i drawn x,
  In x drawn -> In x (fst (draw_metrics first_year_data last_year_data i countries drawn)).
Proof.
  induction countries as [|c countries IH]; intros i drawn x Hx; simpl; [exact Hx|].
  destruct (metric_card first_year_data last_year_data c); simpl; [|exact Hx].
  apply IH. apply in_or_app. now left.
Qed.

Lemma draw_metrics_In countries : forall i drawn col m,
  In (col, m) (fst (draw_metrics first_year_data last_year_data i countries drawn)) ->
  In (col, m) drawn \/
  exists c, In c countries /\ metric_card first_year_data last_year_data c = Ok m.
Proof.
  induction countries as [|c countries IH]; intros i drawn col m H; simpl in H.
  - now left.
  - destruct (metric_card first_year_data last_year_data c) as [mc|e] eqn:E;
      simpl in H; [|now left].
    destruct (IH _ _ _ _ H) as [Hin|[c' [Hc' Hm]]].
    + apply in_app_or in Hin. destruct Hin as [Hin|[Heq|[]]]; [now left|].
      injection Heq as _ <-. right. exists c. split; [now left|exact E].
    + right. exists c'. split; [now right|exact Hm].
Qed.

Lemma draw_metrics_complete countries : forall i drawn,
  snd (draw_metrics first_year_data last_year_data i countries drawn) = None ->
  forall c, In c countries ->
    exists m col,
      metric_card first_year_data last_year_data c = Ok m /\
      In (col, m) (fst (draw_metrics first_year_data last_year_data i countries drawn)).
Proof.
  induction countries as [|c countries IH]; intros i drawn Hdone c' Hc'.
  - destruct Hc'.
  - simpl in *.
    destruct (metric_card first_year_data last_year_data c) as [mc|e] eqn:E;
      simpl in *; [|discriminate].
    destruct Hc' as [<-|Hc'].
    + exists mc, (Nat.modulo i 4). split; [exact E|].
      apply draw_metrics_keeps. apply in_or_app. right. now left.
    + now apply IH.
Qed.

Lemma draw_metrics_all_ok countries : forall i drawn,
  (forall c, In c countries ->
             exists m, metric_card first_year_data last_year_data c = Ok m) ->
  snd (draw_metrics first_year_data last_year_data i countries drawn) = None /\
  List.length (fst (draw_metrics first_year_data last_year_data i countries drawn))
    = (List.length drawn + List.length countries)%nat.
Proof.
  induction countries as [|c countries IH]; intros i drawn Hok.
  - simpl. split; [reflexivity|lia].
  - destruct (Hok c (or_introl eq_refl)) as [m Hm].
    cbn [draw_metrics]. rewrite Hm.
    destruct (IH (S i) (drawn ++ [(Nat.modulo i 4, m)])) as [H1 H2].
    + intros c' Hc'. apply Hok. now right.
    + split; [exact H1|]. rewrite H2, length_app. simpl. lia.
Qed.

(** The loop stops at the first country whose metric raises. *)
Lemma draw_metrics_raise before : forall i drawn c after e,
  (forall c', In c' before ->
              exists m, metric_card first_year_data last_year_data c' = Ok m) ->
  metric_card first_year_data last_year_data c = Raise e ->
  draw_metrics first_year_data last_year_data i (before ++ c :: after) drawn
  = (fst (draw_metrics first_year_data last_year_data i before drawn), Some e).
Proof.
  induction before as [|b before IH]; intros i drawn c after e Hok Hc.
  - cbn [draw_metrics List.app fst]. now rewrite Hc.
  - destruct (Hok b (or_introl eq_refl)) as [m Hm].
    cbn [draw_metrics List.app]. rewrite Hm. apply IH; [|exact Hc].
    intros c' Hc'. apply Hok. now right.
Qed.
End Loop.

(** C8, as amended.  A country without a row for one of the two boundary years
    makes its metric raise [IndexError]; nothing catches it, so the loop ends
    there: the cards of the countries before it have been drawn, and neither
    that country nor those after it get a card. *)
Theorem missing_observation_raises gdp_df from_year to_year before c after :
  gdp_at gdp_df c from_year = None \/ gdp_at gdp_df c to_year = None ->
  (forall c', In c' before -> exists m, compute_growth gdp_df c' from_year to_year = Ok m) ->
  compute_growth gdp_df c from_year to_year = Raise IndexError /\
  render_metrics gdp_df (before ++ c :: after) from_year to_year
    = (fst (render_metrics gdp_df before from_year to_year), Some IndexError) /\
  List.length (fst (render_metrics gdp_df before from_year to_year))
    = List.length before.
Proof.
  intros Hmiss Hok.
  assert (Hc : compute_growth gdp_df c from_year to_year = Raise IndexError).
  { rewrite compute_growth_spec. destruct Hmiss as [-> | ->]; [reflexivity|].
    now destruct (gdp_at gdp_df c from_year). }
  split; [exact Hc|]. unfold render_metrics. split.
  - now apply draw_metrics_raise.
  - now destruct (draw_metrics_all_ok (year_slice gdp_df from_year)
                    (year_slice gdp_df to_year) before 0 [] Hok).
Qed.

Lemma missing_observation_raises_witness :
  compute_growth [mkObs "DEU" 1960 100; mkObs "DEU" 2022 450] "XYZ" 1960 2022
    = Raise IndexError /\
  render_metrics [mkObs "DEU" 1960 100; mkObs "DEU" 2022 450]
                 (["DEU"] ++ "XYZ" :: ["DEU"]) 1960 2022
    = (fst (render_metrics [mkObs "DEU" 1960 100; mkObs "DEU" 2022 450]
                           ["DEU"] 1960 2022),
       Some IndexError) /\
  List.length (fst (render_metrics [mkObs "DEU" 1960 100; mkObs "DEU" 2022 450]
                                   ["DEU"] 1960 2022))
    = List.length ["DEU"].
Proof.
  apply (missing_observation_raises [mkObs "DEU" 1960 100; mkObs "DEU" 2022 450]
           1960 2022 ["DEU"] "XYZ" ["DEU"]).
  - left; reflexivity.
  - intros c' [<-|[]]. eexists. vm_compute. reflexivity.
Defined.

(** C8, as stated, fails: with XYZ absent from the table and selected before
    DEU, the pass ends on [IndexError] with no card drawn, although DEU's
    metric can be computed. *)
Lemma missing_observation_is_not_confined :
  ~ (forall gdp_df countries from_year to_year c,
        In c countries ->
        gdp_at gdp_df c from_year = None ->
        forall c' m,
          In c' countries ->
          compute_growth gdp_df c' from_year to_year = Ok m ->
          exists col,
            In (col, m) (fst (render_metrics gdp_df countries from_year to_year))).
Proof.
  intros H.
  destruct (H [mkObs "DEU" 1960 100; mkObs "DEU" 2022 450] ["XYZ"; "DEU"] 1960 2022
              "XYZ" (or_introl eq_refl) eq_refl
              "DEU" (mkMetric "DEU GDP" "0B USD" "4.50x" "normal")
              (or_intror (or_introl eq_refl)) eq_refl) as [col Hin].
  vm_compute in Hin. exact Hin.
Qed.

(** C9.  The metric does not depend on the selection: every card drawn is the
    metric computed for its country from the two boundary values of the full
    table, and a country selected in two complete passes gets the same metric
    in both. *)
Theorem growth_independent_of_selection gdp_df from_year to_year :
  (forall countries col m,
      In (col, m) (fst (render_metrics gdp_df countries from_year to_year)) ->
      exists c v0 v1,
        In c countries /\
        compute_growth gdp_df c from_year to_year = Ok m /\
        gdp_at gdp_df c from_year = Some v0 /\
        gdp_at gdp_df c to_year = Some v1 /\
        value m = (format_f true 0 (v1 / 1e9)%float ++ "B USD")%string) /\
  (forall countries1 countries2 c,
      In c countries1 ->
      In c countries2 ->
      snd (render_metrics gdp_df countries1 from_year to_year) = None ->
      snd (render_metrics gdp_df countries2 from_year to_year) = None ->
      exists m col1 col2,
        compute_growth gdp_df c from_year to_year = Ok m /\
        In (col1, m) (fst (render_metrics gdp_df countries1 from_year to_year)) /\
        In (col2, m) (fst (render_metrics gdp_df countries2 from_year to_year))).
Proof.
  split.
  - intros countries col m H. unfold render_metrics in H.
    apply draw_metrics_In in H. destruct H as [[]|[c [Hc Hm]]].
    exists c. fold (compute_growth gdp_df c from_year to_year) in Hm.
    pose proof Hm as Hspec. rewrite compute_growth_spec in Hspec.
    destruct (gdp_at gdp_df c from_year) as [v0|]; [|discriminate].
    destruct (gdp_at gdp_df c to_year) as [v1|]; [|discriminate].
    exists v0, v1. injection Hspec as <-. auto.
  - intros countries1 countries2 c H1 H2 D1 D2. unfold render_metrics in *.
    destruct (draw_metrics_complete _ _ _ _ _ D1 c H1) as [m [col1 [Hm Hin1]]].
    destruct (draw_metrics_complete _ _ _ _ _ D2 c H2) as [m' [col2 [Hm' Hin2]]].
    assert (m' = m) by congruence. subst m'.
    now exists m, col1, col2.
Qed.

Lemma growth_independent_of_selection_witness :
  exists m col1 col2,
    compute_growth (tidy sample_file ["DEU"; "FRA"]) "DEU" 1960 2022 = Ok m /\
    In (col1, m) (fst (render_metrics (tidy sample_file ["DEU"; "FRA"])
                                      ["DEU"] 1960 2022)) /\
    In (col2, m) (fst (render_metrics (tidy sample_file ["DEU"; "FRA"])
                                      ["FRA"; "DEU"] 1960 2022)).
Proof.
  apply (proj2 (growth_independent_of_selection
                  (tidy sample_file ["DEU"; "FRA"]) 1960 2022)
               ["DEU"] ["FRA"; "DEU"] "DEU").
  - simpl; auto.
  - simpl; auto.
  - vm_compute; reflexivity.
  - vm_compute; reflexivity.
Defined.

(** * Further properties of the load *)

(** Once the file is read, the load succeeds exactly when the file has the
    country-code column and the 63 year columns and no column named GDP;
    otherwise it raises [ValueError] for the column named GDP, or else
    [KeyError] with the non-empty list of the expected labels that are
    absent, and nothing else. *)
Theorem load_fails_only_on_schema to_numeric file :
  reads_years to_numeric ->
  ((exists gdp_df, load_gdp_data to_numeric file = Ok gdp_df) <->
   has_schema file = true) /\
  (forall e,
      load_gdp_data to_numeric file = Raise e ->
      (e = ValueError "GDP" /\ has_column "GDP" (read_csv file) = true) \/
      (exists labels,
          e = KeyError labels /\ labels <> [] /\
          forall l, In l labels <->
            (l = "Country Code" \/ exists y, MIN_YEAR <= y <= MAX_YEAR /\ l = str y) /\
            has_column l (read_csv file) = false)).
Proof.
  intros Hnum. split.
  - split.
    + intros [gdp_df H]. now destruct (load_gdp_data_schema _ _ _ Hnum H).
    + intros H. exists (tidy_rows file). now apply load_gdp_data_Ok.
  - intros e He.
    destruct (has_schema file) eqn:Hs.
    + rewrite (load_gdp_data_Ok to_numeric file Hnum Hs) in He. discriminate.
    + destruct (has_column "GDP" (read_csv file)) eqn:Hname.
      * left. rewrite (load_gdp_data_ValueError to_numeric file Hname) in He.
        injection He as <-. now split.
      * right. destruct (has_schema_false file Hs) as [Hg|Hmiss]; [congruence|].
        destruct (load_gdp_data_KeyError to_numeric file Hname Hmiss)
          as [labels [Hl [Hne Hin]]].
        exists labels. rewrite Hl in He. injection He as <-.
        split; [reflexivity|]. split; [exact Hne|].
        intros l. rewrite Hin. split.
        -- intros [[->|[y [Hy ->]]] Hc]; split; auto.
           right. exists y. split; [now apply in_years|reflexivity].
        -- intros [[->|[y [Hy ->]]] Hc]; split; auto.
           right. exists y. split; [now apply in_years|reflexivity].
Qed.

Lemma load_fails_only_on_schema_witness :
  ((exists gdp_df, load_gdp_data read_decimal sample_file = Ok gdp_df) <->
   has_schema sample_file = true) /\
  (forall e,
      load_gdp_data read_decimal sample_file = Raise e ->
      (e = ValueError "GDP" /\ has_column "GDP" (read_csv sample_file) = true) \/
      (exists labels,
          e = KeyError labels /\ labels <> [] /\
          forall l, In l labels <->
            (l = "Country Code" \/ exists y, MIN_YEAR <= y <= MAX_YEAR /\ l = str y) /\
            has_column l (read_csv sample_file) = false)).
Proof.
  apply (load_fails_only_on_schema read_decimal sample_file).
  exact read_decimal_years.
Defined.

(** Only the country-code column and the year columns 1960..2022 are read,
    and the presence of a column named GDP: two files that agree on them load
    alike, whatever other columns (names, indicator codes, further years)
    they carry. *)
Theorem load_ignores_other_columns to_numeric file file' :
  has_column "GDP" (read_csv file) = has_column "GDP" (read_csv file') ->
  column "Country Code" file = column "Country Code" file' ->
  (forall y, MIN_YEAR <= y <= MAX_YEAR ->
             column (str y) file = column (str y) file') ->
  load_gdp_data to_numeric file = load_gdp_data to_numeric file'.
Proof. apply load_gdp_data_ext. Qed.

Lemma load_ignores_other_columns_witness :
  load_gdp_data read_decimal sample_file
  = load_gdp_data read_decimal
      (("2023", NumberFields [Some 7%float]) ::
       ("Country Code", TextFields ["DEU"; "FRA"]) ::
       ("Indicator Code", TextFields ["NY.GDP.MKTP.CD"]) ::
       map (fun y => (str y, NumberFields [Some (if y =? 2022 then 450%float else 100%float); None]))
           years ++ [("Unnamed: 67", NumberFields [])]).
Proof.
  apply load_ignores_other_columns.
  - reflexivity.
  - reflexivity.
  - intros y Hy. apply in_years in Hy. revert y Hy.
    apply Forall_forall. vm_compute. repeat constructor.
Defined.

(** Every row of the loaded table comes from the file as read: its year is
    one of 1960..2022, its country code is a cell of the country-code column,
    and its GDP is a cell of that year's column. *)
Theorem loaded_rows_come_from_file to_numeric file gdp_df r :
  reads_years to_numeric ->
  load_gdp_data to_numeric file = Ok gdp_df ->
  In r gdp_df ->
  MIN_YEAR <= row_year r <= MAX_YEAR /\
  In (row_code r) (code_cells file) /\
  exists values,
    column (str (row_year r)) (read_csv file) = Some values /\
    In (row_gdp r) values.
Proof.
  intros Hnum Hload Hin.
  destruct (load_gdp_data_schema _ _ _ Hnum Hload) as [_ ->].
  destruct (in_tidy_rows _ _ Hin) as [values [Hy [Hcol Hc]]].
  split; [now apply in_years|]. split.
  - now apply in_combine_l in Hc.
  - exists values. split; [exact Hcol|]. now apply in_combine_r in Hc.
Qed.

Lemma loaded_rows_come_from_file_witness :
  MIN_YEAR <= row_year (mkRow (Str "FRA") 1984 (Num nan)) <= MAX_YEAR /\
  In (row_code (mkRow (Str "FRA") 1984 (Num nan))) (code_cells sample_file) /\
  exists values,
    column (str (row_year (mkRow (Str "FRA") 1984 (Num nan)))) (read_csv sample_file)
      = Some values /\
    In (row_gdp (mkRow (Str "FRA") 1984 (Num nan))) values.
Proof.
  apply (loaded_rows_come_from_file read_decimal sample_file (tidy_rows sample_file)).
  - exact read_decimal_years.
  - vm_compute. reflexivity.
  - apply (nth_error_In _ 49). vm_compute. reflexivity.
Defined.

(** Each year from 1960 to 2022 has, in a loaded table of observations, one
    row per source row, in the file's order, and no other year has any. *)
Theorem year_slice_lists_every_row to_numeric file n rows gdp_df y :
  reads_years to_numeric ->
  load_gdp_data to_numeric file = Ok rows ->
  observations rows = Some gdp_df ->
  csv_rows file n = true ->
  (MIN_YEAR <= y <= MAX_YEAR ->
   map Country_Code (year_slice gdp_df y) = code_column file /\
   Forall (fun o => Year o = y) (year_slice gdp_df y)) /\
  (y < MIN_YEAR \/ MAX_YEAR < y -> year_slice gdp_df y = []).
Proof.
  intros Hnum Hload Hobs Hrows.
  destruct (loaded_observations _ _ _ _ _ Hnum Hload Hobs Hrows)
    as [_ [_ [Hlen [Hyears ->]]]].
  split.
  - now apply (year_slice_codes file n).
  - intros Hy. rewrite year_slice_tidy.
    replace ((MIN_YEAR <=? y) && (y <=? MAX_YEAR)) with false; [reflexivity|].
    symmetry. apply andb_false_iff. rewrite !Z.leb_gt. lia.
Qed.

Lemma year_slice_lists_every_row_witness :
  map Country_Code (year_slice (tidy sample_file ["DEU"; "FRA"]) 2001)
    = code_column sample_file /\
  Forall (fun o => Year o = 2001) (year_slice (tidy sample_file ["DEU"; "FRA"]) 2001).
Proof.
  apply (proj1 (year_slice_lists_every_row read_decimal sample_file 2
                  (tidy_rows sample_file) (tidy sample_file ["DEU"; "FRA"]) 2001
                  read_decimal_years
                  ltac:(vm_compute; reflexivity) ltac:(vm_compute; reflexivity)
                  ltac:(vm_compute; reflexivity))).
  vm_compute. split; discriminate.
Defined.

(** A country-code field that reads as a missing value (empty, NA, N/A,
    NULL, NaN, null, ...) is loaded as NaN in the row of each year, and any
    other text as it stands. *)
Theorem missing_codes_load_as_NaN to_numeric file n gdp_df code_fields i field y :
  reads_years to_numeric ->
  load_gdp_data to_numeric file = Ok gdp_df ->
  csv_rows file n = true ->
  column "Country Code" file = Some (TextFields code_fields) ->
  nth_error code_fields i = Some field ->
  MIN_YEAR <= y <= MAX_YEAR ->
  exists r,
    nth_error gdp_df (Z.to_nat (y - MIN_YEAR) * n + i) = Some r /\
    row_year r = y /\
    (In field na_values -> exists x, row_code r = Num x /\ is_nan x = true) /\
    (~ In field na_values -> row_code r = Str field).
Proof.
  intros Hnum Hload Hrows Hcol Hfield Hy.
  destruct (load_gdp_data_schema _ _ _ Hnum Hload) as [Hschema ->].
  assert (Hcells : code_cells file = map text_cell code_fields).
  { unfold code_cells. now rewrite column_read_csv, Hcol. }
  assert (Hcode : nth_error (code_cells file) i = Some (text_cell field)).
  { now rewrite Hcells, nth_error_map, Hfield. }
  destruct (year_column file n Hrows Hschema y (proj2 (in_years y) Hy))
    as [values [Hyear Hlen]].
  assert (Hi : (i < List.length values)%nat).
  { rewrite Hlen, <- (length_code_column_cells file n Hrows Hschema).
    apply nth_error_Some. congruence. }
  destruct (nth_error values i) as [v|] eqn:Ev;
    [|apply nth_error_None in Ev; lia].
  exists (mkRow (text_cell field) y v). split; [|split; [|split]].
  - now apply (nth_error_tidy_rows file n Hrows Hschema i y _ values).
  - reflexivity.
  - intros Hin. exists nan. split; [|reflexivity]. simpl. unfold text_cell.
    replace (existsb (String.eqb field) na_values) with true; [reflexivity|].
    symmetry. apply existsb_exists. exists field. split; [exact Hin|].
    apply String.eqb_refl.
  - intros Hout. simpl. unfold text_cell.
    destruct (existsb (String.eqb field) na_values) eqn:E; [|reflexivity].
    exfalso. apply Hout. apply existsb_exists in E. destruct E as [m [Hm Heq]].
    apply String.eqb_eq in Heq. now subst.
Qed.

Lemma missing_codes_load_as_NaN_witness :
  exists r,
    nth_error
      (tidy_rows (("Country Code", TextFields ["DEU"; "NA"]) ::
                  map (fun y => (str y, NumberFields [Some 100%float; Some 7%float]))
                      years))
      (Z.to_nat (2022 - MIN_YEAR) * 2 + 1) = Some r /\
    row_year r = 2022 /\
    (In "NA" na_values -> exists x, row_code r = Num x /\ is_nan x = true) /\
    (~ In "NA" na_values -> row_code r = Str "NA").
Proof.
  apply (missing_codes_load_as_NaN read_decimal
           (("Country Code", TextFields ["DEU"; "NA"]) ::
            map (fun y => (str y, NumberFields [Some 100%float; Some 7%float])) years)
           2 _ ["DEU"; "NA"] 1 "NA" 2022).
  - exact read_decimal_years.
  - vm_compute. reflexivity.
  - vm_compute. reflexivity.
  - reflexivity.
  - reflexivity.
  - vm_compute. split; discriminate.
Defined.

(** * The widgets' bounds and options *)

Lemma fold_left_min_spec rest : forall y,
  (fold_left Z.min rest y = y \/ In (fold_left Z.min rest y) rest) /\
  fold_left Z.min rest y <= y /\
  Forall (fun x => fold_left Z.min rest y <= x) rest.
Proof.
  induction rest as [|x rest IH]; intros y; simpl.
  - repeat split; [now left|lia|constructor].
  - destruct (IH (Z.min y x)) as [Hin [Hle Hall]]. repeat split.
    + destruct Hin as [Hin|Hin]; [|now right; right].
      rewrite Hin. destruct (Z.min_spec y x) as [[_ ->]|[_ ->]]; [now left|right; now left].
    + lia.
    + constructor; [lia|exact Hall].
Qed.

Lemma fold_left_max_spec rest : forall y,
  (fold_left Z.max rest y = y \/ In (fold_left Z.max rest y) rest) /\
  y <= fold_left Z.max rest y /\
  Forall (fun x => x <= fold_left Z.max rest y) rest.
Proof.
  induction rest as [|x rest IH]; intros y; simpl.
  - repeat split; [now left|lia|constructor].
  - destruct (IH (Z.max y x)) as [Hin [Hle Hall]]. repeat split.
    + destruct Hin as [Hin|Hin]; [|now right; right].
      rewrite Hin. destruct (Z.max_spec y x) as [[_ ->]|[_ ->]]; [right; now left|now left].
    + lia.
    + constructor; [lia|exact Hall].
Qed.

Lemma series_min_bound series lo :
  In lo series -> (forall y, In y series -> lo <= y) -> series_min series = Some lo.
Proof.
  destruct series as [|y rest]; intros Hin Hlow; [destruct Hin|]. simpl. f_equal.
  destruct (fold_left_min_spec rest y) as [Hm [Hle Hall]].
  rewrite Forall_forall in Hall.
  assert (lo <= fold_left Z.min rest y).
  { apply Hlow. destruct Hm as [->|Hm]; [now left|now right]. }
  destruct Hin as [<-|Hin]; [lia|]. specialize (Hall lo Hin). lia.
Qed.

Lemma series_max_bound series hi :
  In hi series -> (forall y, In y series -> y <= hi) -> series_max series = Some hi.
Proof.
  destruct series as [|y rest]; intros Hin Hup; [destruct Hin|]. simpl. f_equal.
  destruct (fold_left_max_spec rest y) as [Hm [Hle Hall]].
  rewrite Forall_forall in Hall.
  assert (fold_left Z.max rest y <= hi).
  { apply Hup. destruct Hm as [->|Hm]; [now left|now right]. }
  destruct Hin as [<-|Hin]; [lia|]. specialize (Hall hi Hin). lia.
Qed.

Lemma tidy_rows_has_year file n y :
  csv_rows file n = true -> has_schema file = true ->
  (0 < n)%nat -> MIN_YEAR <= y <= MAX_YEAR ->
  In y (map row_year (tidy_rows file)).
Proof.
  intros Hrows Hschema Hn Hy.
  destruct (year_column file n Hrows Hschema y (proj2 (in_years y) Hy))
    as [values [Hcol Hlen]].
  pose proof (length_code_column_cells file n Hrows Hschema) as Hcodes.
  destruct (code_cells file) as [|c cells] eqn:Ecells; [simpl in Hcodes; lia|].
  destruct values as [|v values]; [simpl in Hlen; lia|].
  apply in_map_iff. exists (mkRow c y v). split; [reflexivity|].
  apply (nth_error_In _ (Z.to_nat (y - MIN_YEAR) * n + 0)).
  apply (nth_error_tidy_rows file n Hrows Hschema 0 y c (v :: values)); auto.
  now rewrite Ecells.
Qed.

(** The slider's bounds: on a loaded table with at least one source row the
    least year is 1960 and the greatest 2022; with no source row the table is
    empty and both are NaN. *)
Theorem year_bounds_of_loaded_table to_numeric file n gdp_df :
  reads_years to_numeric ->
  load_gdp_data to_numeric file = Ok gdp_df ->
  csv_rows file n = true ->
  ((0 < n)%nat ->
   min_year gdp_df = Some MIN_YEAR /\ max_year gdp_df = Some MAX_YEAR) /\
  (n = 0%nat -> min_year gdp_df = None /\ max_year gdp_df = None).
Proof.
  intros Hnum Hload Hrows.
  destruct (load_gdp_data_schema _ _ _ Hnum Hload) as [Hschema ->].
  assert (Hrange : forall y, In y (map row_year (tidy_rows file)) ->
                             MIN_YEAR <= y <= MAX_YEAR).
  { intros y Hy. apply in_map_iff in Hy. destruct Hy as [r [<- Hr]].
    destruct (in_tidy_rows _ _ Hr) as [_ [Hin _]]. now apply in_years. }
  split.
  - intros Hn. unfold min_year, max_year. split.
    + apply series_min_bound.
      * apply (tidy_rows_has_year file n); auto. unfold MIN_YEAR, MAX_YEAR. lia.
      * intros y Hy. now apply Hrange.
    + apply series_max_bound.
      * apply (tidy_rows_has_year file n); auto. unfold MIN_YEAR, MAX_YEAR. lia.
      * intros y Hy. now apply Hrange.
  - intros ->. pose proof (length_tidy_rows file 0 Hrows Hschema) as Hlen.
    unfold min_year, max_year.
    destruct (tidy_rows file); [split; reflexivity|discriminate].
Qed.

Lemma year_bounds_of_loaded_table_witness :
  min_year (tidy_rows sample_file) = Some MIN_YEAR /\
  max_year (tidy_rows sample_file) = Some MAX_YEAR.
Proof.
  apply (proj1 (year_bounds_of_loaded_table read_decimal sample_file 2
                  (tidy_rows sample_file) read_decimal_years
                  ltac:(vm_compute; reflexivity) ltac:(vm_compute; reflexivity))).
  lia.
Defined.

Lemma existsb_eqb_In c seen : existsb (String.eqb c) seen = true <-> In c seen.
Proof.
  rewrite existsb_exists. split.
  - intros [x [Hx He]]. apply String.eqb_eq in He. now subst.
  - intros H. exists c. split; [exact H|apply String.eqb_refl].
Qed.

Lemma unique_from_In series : forall seen c,
  In c (unique_from seen series) <-> In c series /\ ~ In c seen.
Proof.
  induction series as [|x series IH]; intros seen c; simpl; [tauto|].
  destruct (existsb (String.eqb x) seen) eqn:E.
  - apply existsb_eqb_In in E. rewrite IH. split.
    + intros [H1 H2]. auto.
    + intros [[->|H1] H2]; [contradiction|auto].
  - assert (Hx : ~ In x seen) by (rewrite <- existsb_eqb_In; congruence).
    simpl. rewrite IH. simpl. split.
    + intros [->|[H1 H2]]; [auto|]. split; [now right|tauto].
    + intros [[->|H1] H2]; [now left|].
      destruct (string_dec x c) as [->|Hne]; [now left|right]. tauto.
Qed.

Lemma unique_from_NoDup series : forall seen, NoDup (unique_from seen series).
Proof.
  induction series as [|x series IH]; intros seen; simpl; [constructor|].
  destruct (existsb (String.eqb x) seen); [apply IH|].
  constructor; [|apply IH].
  rewrite unique_from_In. simpl. tauto.
Qed.

Lemma unique_from_NoDup_id series : forall seen,
  NoDup series -> (forall c, In c series -> ~ In c seen) ->
  unique_from seen series = series.
Proof.
  induction series as [|x series IH]; intros seen Hnd Hseen; simpl; [reflexivity|].
  inversion Hnd as [|? ? Hx Hnd']; subst.
  replace (existsb (String.eqb x) seen) with false.
  - f_equal. apply IH; [exact Hnd'|].
    intros c Hc [<-|H]; [contradiction|]. apply (Hseen c); [now right|exact H].
  - symmetry. apply not_true_is_false. rewrite existsb_eqb_In.
    apply Hseen. now left.
Qed.

Lemma unique_from_seen series : forall seen,
  (forall c, In c series -> In c seen) -> unique_from seen series = [].
Proof.
  induction series as [|x series IH]; intros seen H; simpl; [reflexivity|].
  replace (existsb (String.eqb x) seen) with true.
  - apply IH. intros c Hc. apply H. now right.
  - symmetry. apply existsb_eqb_In, H. now left.
Qed.

(** Values met again add nothing. *)
Lemma unique_from_app_seen series : forall seen again,
  (forall c, In c again -> In c seen \/ In c series) ->
  unique_from seen (series ++ again) = unique_from seen series.
Proof.
  induction series as [|x series IH]; intros seen again H; simpl.
  - apply unique_from_seen. intros c Hc. destruct (H c Hc) as [?|[]]; assumption.
  - destruct (existsb (String.eqb x) seen) eqn:E.
    + apply IH. intros c Hc. destruct (H c Hc) as [?|[<-|?]]; auto.
      left. now apply existsb_eqb_In.
    + f_equal. apply IH. intros c Hc. simpl.
      destruct (H c Hc) as [?|[<-|?]]; auto.
Qed.

Lemma map_flat_map {A B C : Type} (f : B -> C) (g : A -> list B) (l : list A) :
  map f (flat_map g l) = flat_map (fun a => map f (g a)) l.
Proof.
  induction l as [|a l IH]; simpl; [reflexivity|].
  now rewrite map_app, IH.
Qed.

(** The multiselect's options: the country codes of a loaded table of
    observations are those of the file's country-code column, each once, in
    the order of their first row; when the file has one row per country they
    are that column. *)
Theorem countries_of_loaded_table to_numeric file n rows gdp_df :
  reads_years to_numeric ->
  load_gdp_data to_numeric file = Ok rows ->
  observations rows = Some gdp_df ->
  csv_rows file n = true ->
  countries gdp_df = unique (code_column file) /\
  NoDup (countries gdp_df) /\
  (forall c, In c (countries gdp_df) <-> In c (code_column file)) /\
  (NoDup (code_column file) -> countries gdp_df = code_column file).
Proof.
  intros Hnum Hload Hobs Hrows.
  destruct (loaded_observations _ _ _ _ _ Hnum Hload Hobs Hrows)
    as [_ [_ [Hlen [Hyears ->]]]].
  assert (Hcodes : map Country_Code (tidy file (code_column file))
                   = flat_map (fun _ => code_column file) years).
  { unfold tidy. rewrite map_flat_map.
    assert (Hblock : forall y, In y years ->
              map Country_Code
                match year_numbers file y with
                | Some values => year_block (code_column file) values y
                | None => []
                end = code_column file).
    { intros y Hy. destruct (Hyears y Hy) as [values [-> Hv]].
      unfold year_block. rewrite map_map. simpl.
      apply (map_fst_combine (code_column file) values). now rewrite Hv. }
    clear Hyears. induction years as [|y ys IH]; simpl; [reflexivity|].
    rewrite (Hblock y (or_introl eq_refl)), IH; [reflexivity|].
    intros z Hz. apply Hblock. now right. }
  assert (Heq : countries (tidy file (code_column file)) = unique (code_column file)).
  { unfold countries, unique. rewrite Hcodes.
    pose proof length_years as Hl.
    destruct years as [|y ys]; [discriminate|]. simpl.
    apply unique_from_app_seen. intros c Hc. right.
    apply in_flat_map in Hc. now destruct Hc as [_ [_ Hc]]. }
  rewrite Heq. unfold unique. split; [reflexivity|]. split; [apply unique_from_NoDup|].
  split.
  - intros c. rewrite unique_from_In. simpl. tauto.
  - intros Hnd. apply unique_from_NoDup_id; [exact Hnd|]. intros c _ [].
Qed.

Lemma countries_of_loaded_table_witness :
  countries (tidy sample_file ["DEU"; "FRA"]) = code_column sample_file.
Proof.
  apply (proj2 (proj2 (proj2 (countries_of_loaded_table read_decimal sample_file 2
                  (tidy_rows sample_file) (tidy sample_file ["DEU"; "FRA"])
                  read_decimal_years
                  ltac:(vm_compute; reflexivity) ltac:(vm_compute; reflexivity)
                  ltac:(vm_compute; reflexivity))))).
  vm_compute. repeat constructor; simpl; intuition discriminate.
Defined.

(** * Further properties of the metric cards *)

(** With the widgets' values the loop never fails: on a loaded table of
    observations, for countries of the file and boundary years within
    1960..2022, the pass ends without an exception and draws one card per
    selected country. *)
Theorem metrics_complete_on_loaded_table to_numeric file n rows gdp_df
    selected_countries from_year to_year :
  reads_years to_numeric ->
  load_gdp_data to_numeric file = Ok rows ->
  observations rows = Some gdp_df ->
  csv_rows file n = true ->
  (forall c, In c selected_countries -> In c (code_column file)) ->
  MIN_YEAR <= from_year <= MAX_YEAR ->
  MIN_YEAR <= to_year <= MAX_YEAR ->
  snd (render_metrics gdp_df selected_countries from_year to_year) = None /\
  List.length (fst (render_metrics gdp_df selected_countries from_year to_year))
    = List.length selected_countries.
Proof.
  intros Hnum Hload Hobs Hrows Hsel Hfrom Hto.
  destruct (loaded_observations _ _ _ _ _ Hnum Hload Hobs Hrows)
    as [_ [_ [Hlen [Hyears ->]]]].
  unfold render_metrics.
  apply (draw_metrics_all_ok _ _ selected_countries 0 []).
  intros c Hc.
  fold (compute_growth (tidy file (code_column file)) c from_year to_year).
  rewrite compute_growth_spec.
  destruct (gdp_at_tidy file n _ Hlen Hyears c from_year (Hsel c Hc) Hfrom) as [v0 ->].
  destruct (gdp_at_tidy file n _ Hlen Hyears c to_year (Hsel c Hc) Hto) as [v1 ->].
  eexists. reflexivity.
Qed.

Lemma metrics_complete_on_loaded_table_witness :
  snd (render_metrics (tidy sample_file ["DEU"; "FRA"]) ["FRA"; "DEU"; "FRA"] 1960 2022)
    = None /\
  List.length
    (fst (render_metrics (tidy sample_file ["DEU"; "FRA"]) ["FRA"; "DEU"; "FRA"] 1960 2022))
    = List.length ["FRA"; "DEU"; "FRA"].
Proof.
  apply (metrics_complete_on_loaded_table read_decimal sample_file 2
           (tidy_rows sample_file)).
  - exact read_decimal_years.
  - vm_compute. reflexivity.
  - vm_compute. reflexivity.
  - vm_compute. reflexivity.
  - intros c H. vm_compute. simpl in H. tauto.
  - vm_compute. split; discriminate.
  - vm_compute. split; discriminate.
Defined.

Lemma draw_metrics_drawn first_year_data last_year_data countries :
  forall i drawn,
    draw_metrics first_year_data last_year_data i countries drawn
    = (drawn ++ fst (draw_metrics first_year_data last_year_data i countries []),
       snd (draw_metrics first_year_data last_year_data i countries [])).
Proof.
  induction countries as [|c countries IH]; intros i drawn; cbn [draw_metrics].
  - cbn [fst snd]. now rewrite app_nil_r.
  - destruct (metric_card first_year_data last_year_data c) as [m|e].
    + rewrite (IH (S i) (drawn ++ _)), (IH (S i) ([] ++ _)).
      cbn [fst snd]. now rewrite <- app_assoc.
    + cbn [fst snd]. now rewrite app_nil_r.
Qed.

Lemma draw_metrics_nth first_year_data last_year_data countries :
  forall i k col m,
    nth_error (fst (draw_metrics first_year_data last_year_data i countries [])) k
      = Some (col, m) ->
    col = Nat.modulo (i + k) 4 /\
    exists c, nth_error countries k = Some c /\
              metric_card first_year_data last_year_data c = Ok m.
Proof.
  induction countries as [|c countries IH]; intros i k col m; cbn [draw_metrics].
  - destruct k; discriminate.
  - destruct (metric_card first_year_data last_year_data c) as [mc|e] eqn:E.
    + rewrite draw_metrics_drawn. cbn [fst].
      destruct k as [|k]; cbn [List.app nth_error].
      * intros H. injection H as <- <-. rewrite Nat.add_0_r.
        split; [reflexivity|]. now exists c.
      * intros H. destruct (IH _ _ _ _ H) as [-> Hc].
        split; [f_equal; lia|exact Hc].
    + destruct k; discriminate.
Qed.

(** The cards keep the order of the selection and fill the four columns in
    turn: the card at position [k], whether or not the pass ends normally, is
    in column [k mod 4] and is the metric of the [k]-th selected country. *)
Theorem cards_follow_selection gdp_df selected_countries from_year to_year k col m :
  nth_error (fst (render_metrics gdp_df selected_countries from_year to_year)) k
    = Some (col, m) ->
  col = Nat.modulo k 4 /\
  exists c,
    nth_error selected_countries k = Some c /\
    compute_growth gdp_df c from_year to_year = Ok m.
Proof.
  unfold render_metrics. intros H.
  apply draw_metrics_nth in H. exact H.
Qed.

Lemma cards_follow_selection_witness :
  1%nat = Nat.modulo 5 4 /\
  exists c,
    nth_error ["DEU"; "FRA"; "DEU"; "DEU"; "FRA"; "DEU"] 5 = Some c /\
    compute_growth (tidy sample_file ["DEU"; "FRA"]) c 1960 2022
    = Ok (mkMetric "DEU GDP" "0B USD" "4.50x" "normal").
Proof.
  apply (cards_follow_selection (tidy sample_file ["DEU"; "FRA"])
           ["DEU"; "FRA"; "DEU"; "DEU"; "FRA"; "DEU"] 1960 2022 5).
  vm_compute. reflexivity.
Defined.

(** Every card drawn is labelled with its country, shows a value in billions
    of USD, and is either N/A in the colour off or a ratio ending in x in the
    colour normal; the colour off is that of N/A alone. *)
Theorem cards_are_well_formed gdp_df selected_countries from_year to_year col m :
  In (col, m) (fst (render_metrics gdp_df selected_countries from_year to_year)) ->
  (exists c, In c selected_countries /\ label m = (c ++ " GDP")%string) /\
  (exists v, value m = (v ++ "B USD")%string) /\
  ((delta m = "N/A" /\ delta_color m = "off") \/
   ((exists r, delta m = (r ++ "x")%string) /\ delta m <> "N/A" /\
    delta_color m = "normal")).
Proof.
  unfold render_metrics. intros H.
  apply draw_metrics_In in H. destruct H as [[]|[c [Hc Hm]]].
  fold (compute_growth gdp_df c from_year to_year) in Hm.
  rewrite compute_growth_spec in Hm.
  destruct (gdp_at gdp_df c from_year) as [v0|]; [|discriminate].
  destruct (gdp_at gdp_df c to_year) as [v1|]; [|discriminate].
  injection Hm as <-. simpl. split; [now exists c|]. split; [now eexists|].
  destruct (is_nan v0); [now left|right].
  split; [now eexists|]. split; [apply suffix_x_not_NA|reflexivity].
Qed.

Lemma cards_are_well_formed_witness :
  (exists c, In c ["FRA"] /\
             label (mkMetric "FRA GDP" "nanB USD" "N/A" "off") = (c ++ " GDP")%string) /\
  (exists v, value (mkMetric "FRA GDP" "nanB USD" "N/A" "off") = (v ++ "B USD")%string) /\
  ((delta (mkMetric "FRA GDP" "nanB USD" "N/A" "off") = "N/A" /\
    delta_color (mkMetric "FRA GDP" "nanB USD" "N/A" "off") = "off") \/
   ((exists r, delta (mkMetric "FRA GDP" "nanB USD" "N/A" "off") = (r ++ "x")%string) /\
    delta (mkMetric "FRA GDP" "nanB USD" "N/A" "off") <> "N/A" /\
    delta_color (mkMetric "FRA GDP" "nanB USD" "N/A" "off") = "normal")).
Proof.
  apply (cards_are_well_formed (tidy sample_file ["DEU"; "FRA"]) ["FRA"] 1960 2022 0%nat).
  vm_compute. left. reflexivity.
Defined.

(** * A single year *)

(** A finite non-zero binary64 number divided by itself is exactly one. *)
Lemma SF64div_self s m e :
  SF64div (S754_finite s m e) (S754_finite s m e) = Prim2SF 1.
Proof.
  unfold SF64div, SFdiv, SFdiv_core_binary.
  replace (Zdigits2 (Z.pos m) + e - (Zdigits2 (Z.pos m) + e)) with 0 by lia.
  replace (e - e) with 0 by lia.
  change (Z.min (fexp prec emax 0) 0) with (-53).
  change (0 - -53) with 53. cbv iota.
  change (IntDef.Z.div_eucl (IntDef.Z.shiftl (Z.pos m) 53) (Z.pos m))
    with (Z.div_eucl (Z.shiftl (Z.pos m) 53) (Z.pos m)).
  assert (Hdiv : Z.div_eucl (Z.shiftl (Z.pos m) 53) (Z.pos m) = (2 ^ 53, 0)).
  { pose proof (Z.div_eucl_eq (Z.shiftl (Z.pos m) 53) (Z.pos m)) as Heq.
    pose proof (Z.mod_pos_bound (Z.shiftl (Z.pos m) 53) (Z.pos m)) as Hb.
    unfold Z.modulo in Hb.
    destruct (Z.div_eucl (Z.shiftl (Z.pos m) 53) (Z.pos m)) as [q r].
    rewrite Z.shiftl_mul_pow2 in Heq by lia.
    specialize (Heq ltac:(lia)). specialize (Hb ltac:(lia)).
    assert (q = 2 ^ 53) by nia. subst q. f_equal. lia. }
  rewrite Hdiv.
  replace (new_location (Z.pos m) 0) with loc_Exact
    by (unfold new_location; destruct (Z.even (Z.pos m)); reflexivity).
  rewrite xorb_nilpotent. reflexivity.
Qed.

(** With [from_year = to_year] a country whose GDP in billions is a finite
    non-zero number shows the growth 1.00x; a zero or an infinite one shows
    nanx. *)
Theorem single_year_growth gdp_df c year v :
  gdp_at gdp_df c year = Some v ->
  exists m,
    compute_growth gdp_df c year year = Ok m /\
    (forall s mant e, Prim2SF (v / 1e9) = S754_finite s mant e -> delta m = "1.00x") /\
    (forall s, Prim2SF (v / 1e9) = S754_zero s \/ Prim2SF (v / 1e9) = S754_infinity s ->
               delta m = "nanx").
Proof.
  intros Hv. rewrite compute_growth_spec, Hv. eexists. split; [reflexivity|].
  cbn [delta].
  assert (Hnan : forall x, Prim2SF (v / 1e9) = x -> x <> S754_nan -> is_nan v = false).
  { intros x Hx Hne. rewrite <- is_nan_billions.
    destruct (is_nan (v / 1e9)) eqn:E; [|reflexivity].
    apply is_nan_Prim2SF in E. congruence. }
  split.
  - intros s mant e H. rewrite (Hnan _ H) by discriminate.
    unfold format_f. rewrite FloatAxioms.div_spec, H, SF64div_self. reflexivity.
  - intros s [H|H]; rewrite (Hnan _ H) by discriminate;
      unfold format_f; rewrite FloatAxioms.div_spec, H; reflexivity.
Qed.

Lemma single_year_growth_witness :
  exists m,
    compute_growth (tidy sample_file ["DEU"; "FRA"]) "DEU" 2022 2022 = Ok m /\
    (forall s mant e, Prim2SF (450 / 1e9) = S754_finite s mant e -> delta m = "1.00x") /\
    (forall s, Prim2SF (450 / 1e9) = S754_zero s \/ Prim2SF (450 / 1e9) = S754_infinity s ->
               delta m = "nanx").
Proof.
  apply (single_year_growth (tidy sample_file ["DEU"; "FRA"]) "DEU" 2022 450%float).
  vm_compute. reflexivity.
Defined.

(** * Further properties of the selection *)

Lemma in_range lo hi y : In y (range lo hi) <-> lo <= y < hi.
Proof.
  unfold range. rewrite in_map_iff. split.
  - intros [i [<- Hi]]. apply in_seq in Hi. lia.
  - intros H. exists (Z.to_nat (y - lo)). split; [lia|]. apply in_seq. lia.
Qed.

Lemma NoDup_range lo hi : NoDup (range lo hi).
Proof.
  unfold range. apply NoDup_map_NoDup_ForallPairs; [|apply seq_NoDup].
  intros i j _ _ H. cbv beta in H. lia.
Qed.

Lemma length_range lo hi : List.length (range lo hi) = Z.to_nat (hi - lo).
Proof. unfold range. now rewrite length_map, length_seq. Qed.

Lemma NoDup_same_length {A : Type} (l l' : list A) :
  NoDup l -> NoDup l' -> (forall a, In a l <-> In a l') ->
  List.length l = List.length l'.
Proof.
  intros H H' Hiff. apply Nat.le_antisymm; apply NoDup_incl_length; auto;
    intros a Ha; now apply Hiff.
Qed.

Lemma length_years_between from_year to_year :
  MIN_YEAR <= from_year -> from_year <= to_year -> to_year <= MAX_YEAR ->
  List.length (filter (fun y => (from_year <=? y) && (y <=? to_year)) years)
  = Z.to_nat (to_year - from_year + 1).
Proof.
  intros H1 H2 H3.
  rewrite (NoDup_same_length _ (range from_year (to_year + 1))).
  - rewrite length_range. f_equal. lia.
  - apply NoDup_filter, NoDup_years.
  - apply NoDup_range.
  - intros y. rewrite filter_In, in_years, in_range, andb_true_iff, !Z.leb_le. lia.
Qed.

Lemma length_filter_combine {A B : Type} (p : A -> bool) (l : list A) :
  forall l' : list B,
    List.length l = List.length l' ->
    List.length (filter (fun ab => p (fst ab)) (combine l l'))
    = List.length (filter p l).
Proof.
  induction l as [|a l IH]; intros [|b l'] H; simpl in *; try discriminate;
    [reflexivity|].
  injection H as H. destruct (p a); simpl; now rewrite IH.
Qed.

Lemma length_filter_selected codes selected_countries :
  NoDup codes -> NoDup selected_countries ->
  (forall c, In c selected_countries -> In c codes) ->
  List.length (filter (fun c => existsb (String.eqb c) selected_countries) codes)
  = List.length selected_countries.
Proof.
  intros Hc Hs Hincl. apply NoDup_same_length; [now apply NoDup_filter|exact Hs|].
  intros c. rewrite filter_In, existsb_eqb_In. split; [tauto|auto].
Qed.

Lemma list_sum_indicator {A : Type} (p : A -> bool) (k : nat) (l : list A) :
  list_sum (map (fun a => if p a then k else 0%nat) l)
  = (k * List.length (filter p l))%nat.
Proof.
  induction l as [|a l IH]; simpl; [lia|].
  rewrite IH. destruct (p a); simpl; lia.
Qed.

(** The chart's table: on a loaded table of observations of a file with one
    row per country, selecting distinct countries of the file and the years
    [from_year..to_year] within 1960..2022 gives one row for each selected
    country and year. *)
Theorem chart_row_count to_numeric file n rows gdp_df selected_countries
    from_year to_year :
  reads_years to_numeric ->
  load_gdp_data to_numeric file = Ok rows ->
  observations rows = Some gdp_df ->
  csv_rows file n = true ->
  NoDup (code_column file) ->
  NoDup selected_countries ->
  (forall c, In c selected_countries -> In c (code_column file)) ->
  MIN_YEAR <= from_year -> from_year <= to_year -> to_year <= MAX_YEAR ->
  List.length (filtered_gdp_df gdp_df selected_countries from_year to_year)
  = (List.length selected_countries * Z.to_nat (to_year - from_year + 1))%nat.
Proof.
  intros Hnum Hload Hobs Hrows Hnd Hsel Hincl H1 H2 H3.
  destruct (loaded_observations _ _ _ _ _ Hnum Hload Hobs Hrows)
    as [_ [_ [Hlen [Hyears ->]]]].
  rewrite filtered_gdp_df_filter. unfold tidy.
  rewrite filter_flat_map, length_flat_map.
  rewrite <- (length_years_between from_year to_year H1 H2 H3).
  rewrite <- list_sum_indicator. f_equal.
  apply map_ext_in. intros y Hy.
  destruct (Hyears y Hy) as [values [-> Hv]].
  unfold year_block. rewrite filter_map, length_map.
  destruct ((from_year <=? y) && (y <=? to_year)) eqn:Hin.
  - rewrite (filter_ext _ (fun cv => existsb (String.eqb (fst cv)) selected_countries)).
    + rewrite (length_filter_combine
                 (fun c => existsb (String.eqb c) selected_countries)).
      * now apply length_filter_selected.
      * now rewrite Hv.
    + intros [c v]. unfold selected. simpl.
      apply andb_true_iff in Hin. destruct Hin as [-> ->].
      now rewrite !andb_true_r.
  - replace (filter _ (combine (code_column file) values)) with (@nil (string * float));
      [reflexivity|].
    symmetry. apply filter_nil_iff. intros [c v] _. unfold selected. simpl.
    rewrite <- andb_assoc, Hin. apply andb_false_r.
Qed.

Lemma chart_row_count_witness :
  List.length (filtered_gdp_df (tidy sample_file ["DEU"; "FRA"]) ["FRA"; "DEU"] 1970 1989)
  = (List.length ["FRA"; "DEU"] * Z.to_nat (1989 - 1970 + 1))%nat.
Proof.
  apply (chart_row_count read_decimal sample_file 2 (tidy_rows sample_file)).
  - exact read_decimal_years.
  - vm_compute. reflexivity.
  - vm_compute. reflexivity.
  - vm_compute. reflexivity.
  - vm_compute. repeat constructor; simpl; intuition discriminate.
  - repeat constructor; simpl; intuition discriminate.
  - intros c H. vm_compute. simpl in H. tauto.
  - vm_compute. discriminate.
  - vm_compute. discriminate.
  - vm_compute. discriminate.
Defined.

Lemma existsb_meet c s1 s2 :
  existsb (String.eqb c) (filter (fun x => existsb (String.eqb x) s1) s2)
  = existsb (String.eqb c) s1 && existsb (String.eqb c) s2.
Proof.
  apply eq_true_iff_eq.
  rewrite andb_true_iff, !existsb_eqb_In, filter_In, existsb_eqb_In. tauto.
Qed.

(** Selecting from a selection narrows it: the result is the selection by the
    countries common to both and by the overlap of the two year ranges.  Hence
    selecting twice with the same values changes nothing, and a range whose
    first year is after its last selects nothing. *)
Theorem selection_narrows gdp_df s1 a b :
  (forall s2 c d,
      filtered_gdp_df (filtered_gdp_df gdp_df s1 a b) s2 c d
      = filtered_gdp_df gdp_df (filter (fun x => existsb (String.eqb x) s1) s2)
                        (Z.max a c) (Z.min b d)) /\
  filtered_gdp_df (filtered_gdp_df gdp_df s1 a b) s1 a b = filtered_gdp_df gdp_df s1 a b /\
  (b < a -> filtered_gdp_df gdp_df s1 a b = []).
Proof.
  split; [|split].
  - intros s2 c d. rewrite !filtered_gdp_df_filter, filter_filter.
    apply filter_ext. intros o. unfold selected. rewrite existsb_meet.
    apply eq_true_iff_eq. rewrite !andb_true_iff, !Z.leb_le. intuition lia.
  - rewrite !filtered_gdp_df_filter, filter_filter.
    apply filter_ext. intros o. now destruct (selected s1 a b o).
  - intros Hba. rewrite filtered_gdp_df_filter. apply filter_nil_iff.
    intros o _. apply not_true_is_false. rewrite selected_true_iff. lia.
Qed.

Lemma selection_narrows_witness :
  filtered_gdp_df (tidy sample_file ["DEU"; "FRA"]) ["DEU"] 2000 1999 = [].
Proof.
  apply (proj2 (proj2 (selection_narrows (tidy sample_file ["DEU"; "FRA"])
                         ["DEU"] 2000 1999))).
  reflexivity.
Defined.

(** The warning is shown exactly when nothing else is: on a loaded table of
    observations, for countries of the file and years [from_year <= to_year]
    within 1960..2022, the page warns if and only if the chart's table is
    empty, and if and only if no card is drawn. *)
Theorem warning_iff_nothing_shown to_numeric file n rows gdp_df selected_countries
    from_year to_year :
  reads_years to_numeric ->
  load_gdp_data to_numeric file = Ok rows ->
  observations rows = Some gdp_df ->
  csv_rows file n = true ->
  (forall c, In c selected_countries -> In c (code_column file)) ->
  MIN_YEAR <= from_year -> from_year <= to_year -> to_year <= MAX_YEAR ->
  (selection_warning selected_countries <> None <->
   filtered_gdp_df gdp_df selected_countries from_year to_year = []) /\
  (selection_warning selected_countries <> None <->
   fst (render_metrics gdp_df selected_countries from_year to_year) = []).
Proof.
  intros Hnum Hload Hobs Hrows Hsel H1 H2 H3.
  destruct (loaded_observations _ _ _ _ _ Hnum Hload Hobs Hrows)
    as [_ [_ [Hlen [Hyears ->]]]].
  destruct selected_countries as [|c rest].
  - split; (split; [intros _|intros _; discriminate]).
    + rewrite filtered_gdp_df_filter. apply filter_nil_iff. reflexivity.
    + reflexivity.
  - cbn [selection_warning]. split; (split; [intros H; contradiction|intros H; exfalso]).
    + destruct (gdp_at_tidy file n _ Hlen Hyears c from_year
                  (Hsel c (or_introl eq_refl)) ltac:(lia)) as [v Hv].
      unfold gdp_at in Hv.
      destruct (find _ (tidy file (code_column file))) as [o|] eqn:Ef; [|discriminate].
      apply find_some in Ef. destruct Ef as [Hin Hp].
      apply andb_true_iff in Hp. destruct Hp as [Hy Hc].
      apply Z.eqb_eq in Hy. apply String.eqb_eq in Hc.
      assert (Ho : In o (filtered_gdp_df (tidy file (code_column file))
                           (c :: rest) from_year to_year)).
      { rewrite filtered_gdp_df_filter. apply filter_In. split; [exact Hin|].
        apply selected_true_iff. rewrite Hc, Hy. split; [now left|lia]. }
      rewrite H in Ho. destruct Ho.
    + assert (Hcards : List.length
                       (fst (render_metrics (tidy file (code_column file))
                                            (c :: rest) from_year to_year))
                     = List.length (c :: rest)).
      { unfold render_metrics.
        apply (draw_metrics_all_ok _ _ (c :: rest) 0 []).
        intros c' Hc'.
        fold (compute_growth (tidy file (code_column file)) c' from_year to_year).
        rewrite compute_growth_spec.
        destruct (gdp_at_tidy file n _ Hlen Hyears c' from_year (Hsel c' Hc')
                    ltac:(lia)) as [v0 ->].
        destruct (gdp_at_tidy file n _ Hlen Hyears c' to_year (Hsel c' Hc')
                    ltac:(lia)) as [v1 ->].
        eexists. reflexivity. }
      rewrite H in Hcards. discriminate.
Qed.

Lemma warning_iff_nothing_shown_witness :
  (selection_warning ["FRA"] <> None <->
   filtered_gdp_df (tidy sample_file ["DEU"; "FRA"]) ["FRA"] 1960 2022 = []) /\
  (selection_warning ["FRA"] <> None <->
   fst (render_metrics (tidy sample_file ["DEU"; "FRA"]) ["FRA"] 1960 2022) = []).
Proof.
  apply (warning_iff_nothing_shown read_decimal sample_file 2 (tidy_rows sample_file)).
  - exact read_decimal_years.
  - vm_compute. reflexivity.
  - vm_compute. reflexivity.
  - vm_compute. reflexivity.
  - intros c H. vm_compute. simpl in H. tauto.
  - vm_compute. discriminate.
  - vm_compute. discriminate.
  - vm_compute. discriminate.
Defined.

(** * From the file's cells to the cards *)

(** What the loop looks up is the file's cell: on a loaded table of
    observations, for a country whose first source row is row [i], the value
    read for year [y] is the cell of row [i] in column [y], in billions;
    later rows with the same code are not used. *)
Theorem lookup_returns_file_cell to_numeric file n rows gdp_df i c y values v :
  reads_years to_numeric ->
  load_gdp_data to_numeric file = Ok rows ->
  observations rows = Some gdp_df ->
  csv_rows file n = true ->
  nth_error (code_cells file) i = Some (Str c) ->
  (forall j, (j < i)%nat -> nth_error (code_cells file) j <> Some (Str c)) ->
  MIN_YEAR <= y <= MAX_YEAR ->
  column (str y) (read_csv file) = Some values ->
  nth_error values i = Some (Num v) ->
  gdp_in_billions (year_slice gdp_df y) c = Ok (v / 1e9)%float.
Proof.
  intros Hnum Hload Hobs Hrows Hc Hfirst Hy Hcol Hv.
  destruct (loaded_observations _ _ _ _ _ Hnum Hload Hobs Hrows)
    as [_ [Hcodes [_ [Hyears ->]]]].
  destruct (Hyears y (proj2 (in_years y) Hy)) as [year_values [Hnumbers _]].
  rewrite gdp_in_billions_spec.
  rewrite (gdp_at_tidy_first file _ i c y year_values v); auto.
  - exact (typed_code file _ i c Hcodes Hc).
  - intros j Hj E. apply (Hfirst j Hj). now apply (nth_error_texts _ _ j c Hcodes).
  - exact (typed_value file y values year_values i v Hcol Hnumbers Hv).
Qed.

Lemma lookup_returns_file_cell_witness :
  gdp_in_billions
    (year_slice
       (tidy (("Country Code", TextFields ["DEU"; "FRA"; "DEU"]) ::
              map (fun y => (str y, NumberFields [Some 100%float; None; Some 7%float]))
                  years)
             ["DEU"; "FRA"; "DEU"])
       1960)
    "DEU"
  = Ok (100 / 1e9)%float.
Proof.
  apply (lookup_returns_file_cell read_decimal
           (("Country Code", TextFields ["DEU"; "FRA"; "DEU"]) ::
            map (fun y => (str y, NumberFields [Some 100%float; None; Some 7%float]))
                years)
           3 (tidy_rows
                (("Country Code", TextFields ["DEU"; "FRA"; "DEU"]) ::
                 map (fun y => (str y, NumberFields [Some 100%float; None; Some 7%float]))
                     years))
           _ 0 "DEU" 1960 [Num 100; Num nan; Num 7] 100%float).
  - exact read_decimal_years.
  - vm_compute. reflexivity.
  - vm_compute. reflexivity.
  - vm_compute. reflexivity.
  - reflexivity.
  - intros j Hj. lia.
  - vm_compute. split; discriminate.
  - vm_compute. reflexivity.
  - reflexivity.
Defined.

(** A country whose field for [from_year] is empty in the file gets the card
    N/A, in the colour off, whatever its cell for [to_year]. *)
Theorem empty_first_cell_gives_NA to_numeric file n rows gdp_df i c
    from_year to_year first_fields last_values v1 :
  reads_years to_numeric ->
  load_gdp_data to_numeric file = Ok rows ->
  observations rows = Some gdp_df ->
  csv_rows file n = true ->
  nth_error (code_cells file) i = Some (Str c) ->
  (forall j, (j < i)%nat -> nth_error (code_cells file) j <> Some (Str c)) ->
  MIN_YEAR <= from_year <= MAX_YEAR ->
  MIN_YEAR <= to_year <= MAX_YEAR ->
  column (str from_year) file = Some (NumberFields first_fields) ->
  nth_error first_fields i = Some None ->
  column (str to_year) (read_csv file) = Some last_values ->
  nth_error last_values i = Some (Num v1) ->
  compute_growth gdp_df c from_year to_year
  = Ok (mkMetric (c ++ " GDP")%string
                 (format_f true 0 (v1 / 1e9)%float ++ "B USD")%string
                 "N/A" "off").
Proof.
  intros Hnum Hload Hobs Hrows Hc Hfirst Hfrom Hto Hcol0 Hv0 Hcol1 Hv1.
  destruct (loaded_observations _ _ _ _ _ Hnum Hload Hobs Hrows)
    as [_ [Hcodes [_ [Hyears ->]]]].
  destruct (Hyears from_year (proj2 (in_years from_year) Hfrom)) as [vals0 [Hn0 _]].
  destruct (Hyears to_year (proj2 (in_years to_year) Hto)) as [vals1 [Hn1 _]].
  assert (Hfirst' : forall j, (j < i)%nat -> nth_error (code_column file) j <> Some c).
  { intros j Hj E. apply (Hfirst j Hj). now apply (nth_error_texts _ _ j c Hcodes). }
  rewrite compute_growth_spec.
  rewrite (gdp_at_tidy_first file _ i c from_year vals0 nan
             (typed_code _ _ _ _ Hcodes Hc) Hfirst' Hfrom Hn0).
  - rewrite (gdp_at_tidy_first file _ i c to_year vals1 v1
               (typed_code _ _ _ _ Hcodes Hc) Hfirst' Hto Hn1
               (typed_value _ _ _ _ _ _ Hcol1 Hn1 Hv1)).
    reflexivity.
  - apply (typed_value file from_year (read_fields (NumberFields first_fields))).
    + now rewrite column_read_csv, Hcol0.
    + exact Hn0.
    + simpl. now rewrite nth_error_map, Hv0.
Qed.

Lemma empty_first_cell_gives_NA_witness :
  compute_growth (tidy sample_file ["DEU"; "FRA"]) "FRA" 1960 2022
  = Ok (mkMetric "FRA GDP"
                 (format_f true 0 (nan / 1e9)%float ++ "B USD")%string
                 "N/A" "off").
Proof.
  apply (empty_first_cell_gives_NA read_decimal sample_file 2 (tidy_rows sample_file)
           _ 1 "FRA" 1960 2022
           [Some 100%float; None] [Num 450; Num nan] nan).
  - exact read_decimal_years.
  - vm_compute. reflexivity.
  - vm_compute. reflexivity.
  - vm_compute. reflexivity.
  - reflexivity.
  - intros [|[|j]] Hj; [discriminate|lia|lia].
  - vm_compute. split; discriminate.
  - vm_compute. split; discriminate.
  - vm_compute. reflexivity.
  - reflexivity.
  - vm_compute. reflexivity.
  - reflexivity.
Defined.
